(** * splurge-sql-runner: the batch execution engine and its resilience layer

    A shallow embedding of [splurge_sql_runner/database/engines.py]
  ([SqlAlchemyConnection], [UnifiedDatabaseEngine]) together with the
  circuit breaker that [splurge_sql_runner/errors/__init__.py] re-exports.

  Python code that talks to SQLAlchemy is written in a small monad that
  threads the state of the outside world, collects the calls made on the
  underlying SQLAlchemy objects, and either returns a value or raises a
  Python exception.  The SQLAlchemy engine and connection, the statement
  splitter and the statement classifier are collaborators of the code: they
  are the fields of an environment record, and every theorem holds for every
  such environment.

  Conventions.
  - Strings are [string]; [str.lower] is the ASCII lower-casing.
  - Exceptions are instances of Python's [Exception]; [str(e)] is the
    message of [e].
  - Logger calls neither raise nor touch the connection; they are left out. *)

From Stdlib Require Import List String Ascii Bool Arith Lia ZArith.
Import ListNotations.
Local Open Scope string_scope.
Local Open Scope list_scope.

Set Implicit Arguments.

(* ------------------------------------------------------------------ *)
(** ** Python strings *)

Module PyStr.

(** [c.lower()] on one ASCII character. *)
Definition lower_ascii (c : ascii) : ascii :=
  let n := nat_of_ascii c in
  if ((65 <=? n) && (n <=? 90))%nat then ascii_of_nat (n + 32) else c.

(** [s.lower()]. *)
Fixpoint lower (s : string) : string :=
  match s with
  | EmptyString => EmptyString
  | String c rest => String (lower_ascii c) (lower rest)
  end.

(** [sub in s]: [sub] occurs in [s] as a contiguous substring. *)
Fixpoint contains (sub s : string) : bool :=
  if String.prefix sub s then true
  else match s with
       | EmptyString => false
       | String _ rest => contains sub rest
       end.

End PyStr.

(* ------------------------------------------------------------------ *)
(** ** Exceptions *)

(** The exception classes the engine distinguishes.  [OtherException] stands
  for every class raised by a driver or a helper that is not one of the
  named ones. *)
Inductive ExnClass : Type :=
| DatabaseConnectionError
| DatabaseOperationError
| SqlParseError
| UnboundLocalError
| OtherException (name : string).

Record Exn : Type := mkExn { exn_class : ExnClass; exn_msg : string }.

(** [str(e)]. *)
Definition str (e : Exn) : string := exn_msg e.

(** [isinstance(e, DatabaseConnectionError)]. *)
Definition is_DatabaseConnectionError (e : Exn) : bool :=
  match exn_class e with
  | DatabaseConnectionError => true
  | _ => false
  end.

(** The outcome of running a piece of Python. *)
Inductive Result (A : Type) : Type :=
| Return (a : A)
| Raise (e : Exn).
Arguments Return {A} a.
Arguments Raise {A} e.

Definition is_Raise {A} (r : Result A) : bool :=
  match r with Raise _ => true | Return _ => false end.

(* ------------------------------------------------------------------ *)
(** ** Values that cross the SQLAlchemy boundary *)

Section Engine.

(** A database value (one cell of a row, one bound parameter). *)
Variable Cell : Type.

(** A row mapping, [dict(row._mapping)]: column name to value, in column
    order. *)
Definition Row : Type := list (string * Cell).

(** A [Dict[str, Any]] of parameters, in insertion order. *)
Definition Parameters : Type := list (string * Cell).

(** What [Connection.execute] receives after [text(sql)]. *)
Inductive Bound : Type :=
| NoParameters
| Positional (values : list Cell)
| Named (parameters : Parameters).

(** Python values stored in a result dictionary. *)
Inductive PyVal : Type :=
| PyNone
| PyTrue
| PyInt (n : nat)
| PyStr (s : string)
| PyRows (rows : list Row).

(** One dictionary of the list returned by [batch]. *)
Definition Entry : Type := list (string * PyVal).

(** [d.get(key)]. *)
Fixpoint dict_get (d : Entry) (key : string) : option PyVal :=
  match d with
  | [] => None
  | (k, v) :: rest => if String.eqb k key then Some v else dict_get rest key
  end.

(** Calls made on the SQLAlchemy objects, and the moments at which the
    engine appends to its [results] list. *)
Inductive Event : Type :=
| EvCreateEngine
| EvConnect
| EvExecute (sql : string) (b : Bound)
| EvFetchall
| EvCommit
| EvRollback
| EvClose
| EvDispose
| EvAppend (entry : Entry).

(* ---------------------------------------------------------------- *)
(** ** The environment *)

(** State of the database server and of the SQLAlchemy objects. *)
Variable DState : Type.

(** Handle of a [CursorResult]. *)
Variable Cursor : Type.

(** The SQLAlchemy side and [sql_helper], which the engine imports. *)
Record Env : Type := mkEnv {
  (** [create_engine(url, connect_args=..., **engine_kwargs)], with the two
      configuration getters evaluated before it *)
  sa_create_engine : DState -> DState * Result unit;
  (** [Engine.connect()] *)
  sa_connect : DState -> DState * Result unit;
  (** [Connection.execute(text(sql), ...)] *)
  sa_execute : string -> Bound -> DState -> DState * Result Cursor;
  (** [result.fetchall()] followed by [dict(row._mapping)] on each row *)
  sa_fetchall : Cursor -> DState -> DState * Result (list Row);
  sa_commit : DState -> DState * Result unit;
  sa_rollback : DState -> DState * Result unit;
  sa_close : DState -> DState * Result unit;
  (** [Engine.dispose()] *)
  sa_dispose : DState -> DState * Result unit;
  (** [sql_helper.parse_sql_statements] *)
  parse_sql_statements : string -> Result (list string);
  (** [sql_helper.detect_statement_type] *)
  detect_statement_type : string -> string;
  FETCH_STATEMENT : string;
  EXECUTE_STATEMENT : string;
  ERROR_STATEMENT : string
}.

Variable env : Env.

(** The world: the SQLAlchemy state and the field [self._engine] of the
    [UnifiedDatabaseEngine] ([true] once an engine object is stored). *)
Record World : Type := mkWorld { db : DState; has_engine : bool }.

(* ---------------------------------------------------------------- *)
(** ** The monad *)

Definition M (A : Type) : Type := World -> list Event * World * Result A.

Definition ret {A} (a : A) : M A := fun w => ([], w, Return a).

Definition raise {A} (e : Exn) : M A := fun w => ([], w, Raise e).

Definition bind {A B} (m : M A) (k : A -> M B) : M B :=
  fun w =>
    match m w with
    | (t1, w1, Raise e) => (t1, w1, Raise e)
    | (t1, w1, Return a) =>
        match k a w1 with
        | (t2, w2, r) => (t1 ++ t2, w2, r)
        end
    end.

(** [try: m  except Exception as e: handler e]. *)
Definition try_except {A} (m : M A) (handler : Exn -> M A) : M A :=
  fun w =>
    match m w with
    | (t1, w1, Return a) => (t1, w1, Return a)
    | (t1, w1, Raise e) =>
        match handler e w1 with
        | (t2, w2, r) => (t1 ++ t2, w2, r)
        end
    end.

(** Run [m] and hand its outcome over as a value: the local variables of a
    [try] body survive into the handler this way. *)
Definition attempt {A} (m : M A) : M (Result A) :=
  fun w => match m w with (t, w1, r) => (t, w1, Return r) end.

(** Run [m], then [cleanup] whatever the outcome of [m]; an exception of
    [cleanup] replaces the outcome of [m]. *)
Definition finally_ {A} (m : M A) (cleanup : M unit) : M A :=
  fun w =>
    match m w with
    | (t1, w1, r) =>
        match cleanup w1 with
        | (t2, w2, Return _) => (t1 ++ t2, w2, r)
        | (t2, w2, Raise e) => (t1 ++ t2, w2, Raise e)
        end
    end.

(** One call on a SQLAlchemy object. *)
Definition call {A} (ev : Event) (op : DState -> DState * Result A) : M A :=
  fun w =>
    match op (db w) with
    | (d, r) => ([ev], mkWorld d (has_engine w), r)
    end.

Definition tell (ev : Event) : M unit := fun w => ([ev], w, Return tt).

Definition set_engine (b : bool) : M unit :=
  fun w => ([], mkWorld (db w) b, Return tt).

Definition get_engine : M bool := fun w => ([], w, Return (has_engine w)).

Notation "x <- m ;; k" := (bind m (fun x => k))
  (at level 61, m at next level, right associativity).
Notation "m ;;; k" := (bind m (fun _ => k))
  (at level 61, right associativity).
Notation "' pat <- m ;; k" :=
  (bind m (fun x => match x with pat => k end))
  (at level 61, pat pattern, m at next level, right associativity).

Definition trace {A} (o : list Event * World * Result A) : list Event :=
  fst (fst o).
Definition world {A} (o : list Event * World * Result A) : World :=
  snd (fst o).
Definition outcome {A} (o : list Event * World * Result A) : Result A :=
  snd o.

(* ---------------------------------------------------------------- *)
(** ** class SqlAlchemyConnection *)

(** [bool(parameters)]: neither [None] nor an empty dictionary. *)
Definition truthy (parameters : option Parameters) : bool :=
  match parameters with
  | Some (_ :: _) => true
  | _ => false
  end.

(** [list(parameters.values())]. *)
Definition values (parameters : Parameters) : list Cell :=
  map snd parameters.

(** The dictionary behind [parameters]; [None] has none, and the empty
    dictionary stands in. *)
Definition dict_of (parameters : option Parameters) : Parameters :=
  match parameters with
  | Some d => d
  | None => []
  end.

(** [parameters or {}]. *)
Definition or_empty (parameters : option Parameters) : Parameters :=
  if truthy parameters then dict_of parameters else [].

Definition execute (sql : string) (parameters : option Parameters)
  : M Cursor :=
  try_except
    (if truthy parameters && PyStr.contains "?" sql then
       let param_list := values (dict_of parameters) in
       call (EvExecute sql (Positional param_list))
            (sa_execute env sql (Positional param_list))
     else if truthy parameters then
       call (EvExecute sql (Named (dict_of parameters)))
            (sa_execute env sql (Named (dict_of parameters)))
     else
       call (EvExecute sql NoParameters) (sa_execute env sql NoParameters))
    (fun e => raise (mkExn DatabaseOperationError
                           ("SQL execution failed: " ++ str e))).

Definition fetch_all (sql : string) (parameters : option Parameters)
  : M (list Row) :=
  try_except
    (result <- call (EvExecute sql (Named (or_empty parameters)))
                    (sa_execute env sql (Named (or_empty parameters))) ;;
     call EvFetchall (sa_fetchall env result))
    (fun e => raise (mkExn DatabaseOperationError
                           ("Data fetch failed: " ++ str e))).

Definition commit : M unit :=
  try_except (call EvCommit (sa_commit env))
    (fun e => raise (mkExn DatabaseOperationError
                           ("Commit failed: " ++ str e))).

Definition rollback : M unit :=
  try_except (call EvRollback (sa_rollback env))
    (fun e => raise (mkExn DatabaseOperationError
                           ("Rollback failed: " ++ str e))).

(** [SqlAlchemyConnection.close]: the handler only logs. *)
Definition close : M unit :=
  try_except (call EvClose (sa_close env)) (fun _ => ret tt).

(** [with <connection> as conn: body]: [__enter__] returns the connection,
    [__exit__] calls [close] and returns [None], so that an exception of
    the body goes on. *)
Definition with_connection {A} (body : M A) : M A := finally_ body close.

(* ---------------------------------------------------------------- *)
(** ** class UnifiedDatabaseEngine *)

Definition _create_engine : M unit :=
  try_except (call EvCreateEngine (sa_create_engine env))
    (fun e => raise (mkExn DatabaseOperationError
                           ("Failed to create database engine: " ++ str e))).

Definition create_connection : M unit :=
  engine <- get_engine ;;
  (if negb engine then _create_engine ;;; set_engine true else ret tt) ;;;
  try_except (call EvConnect (sa_connect env))
    (fun e => raise (mkExn DatabaseConnectionError
                           ("Failed to create connection: " ++ str e))).

(** The three dictionary literals of [_execute_batch_statements]. *)
Definition fetch_entry (stmt : string) (rows : list Row) : Entry :=
  [("statement", PyStr stmt);
   ("statement_type", PyStr (FETCH_STATEMENT env));
   ("result", PyRows rows);
   ("row_count", PyInt (List.length rows))].

Definition execute_entry (stmt : string) : Entry :=
  [("statement", PyStr stmt);
   ("statement_type", PyStr (EXECUTE_STATEMENT env));
   ("result", PyTrue);
   ("row_count", PyNone)].

Definition error_entry (stmt : string) (error : string) : Entry :=
  [("statement", PyStr stmt);
   ("statement_type", PyStr (ERROR_STATEMENT env));
   ("error", PyStr error)].

(** [results.append(entry)]; the new list is handed back. *)
Definition append (results : list Entry) (entry : Entry) : M (list Entry) :=
  tell (EvAppend entry) ;;; ret (results ++ [entry]).

(** The body of the [for] loop, for one statement. *)
Definition loop_body (results : list Entry) (stmt : string)
  : M (list Entry) :=
  let stmt_type := detect_statement_type env stmt in
  if String.eqb stmt_type (FETCH_STATEMENT env) then
    rows <- fetch_all stmt None ;;
    append results (fetch_entry stmt rows)
  else
    _ <- execute stmt None ;;
    append results (execute_entry stmt).

(** The local variables that the [except] clause reads. *)
Record Locals : Type := mkLocals {
  results : list Entry;
  stmt : option string
}.

(** [for i, stmt in enumerate(statements): ...].  The loop ends with the
    locals as they stand and the exception that left it, if one did. *)
Fixpoint for_statements (statements : list string) (l : Locals)
  : M (Locals * option Exn) :=
  match statements with
  | [] => ret (l, None)
  | s :: rest =>
      r <- attempt (loop_body (results l) s) ;;
      match r with
      | Raise e => ret (mkLocals (results l) (Some s), Some e)
      | Return results' => for_statements rest (mkLocals results' (Some s))
      end
  end.

(** The [try] block: the loop, then [conn.commit()]. *)
Definition try_block (statements : list string) : M (Locals * option Exn) :=
  '(l, exc) <- for_statements statements (mkLocals [] None) ;;
  match exc with
  | Some e => ret (l, Some e)
  | None =>
      r <- attempt commit ;;
      match r with
      | Raise e => ret (l, Some e)
      | Return _ => ret (l, None)
      end
  end.

(** The [except Exception as e] clause; [stmt] is unbound when the loop never
    ran. *)
Definition except_block (l : Locals) (e : Exn) : M (list Entry) :=
  rollback ;;;
  match stmt l with
  | None =>
      raise (mkExn UnboundLocalError
               "cannot access local variable 'stmt' where it is not associated with a value")
  | Some s => append (results l) (error_entry s (str e))
  end.

Definition lift {A} (r : Result A) : M A := fun w => ([], w, r).

Definition _execute_batch_statements (sql_query : string) : M (list Entry) :=
  statements <- lift (parse_sql_statements env sql_query) ;;
  '(l, exc) <- try_block statements ;;
  match exc with
  | None => ret (results l)
  | Some e => except_block l e
  end.

(** The test of the [except] clause of [batch]. *)
Definition is_connection_error (e : Exn) : bool :=
  is_DatabaseConnectionError e
  || PyStr.contains "connection" (PyStr.lower (str e))
  || PyStr.contains "connect" (PyStr.lower (str e))
  || PyStr.contains "unable to connect" (PyStr.lower (str e))
  || PyStr.contains "connection refused" (PyStr.lower (str e))
  || PyStr.contains "timeout" (PyStr.lower (str e)).

Definition batch (sql_query : string) : M (list Entry) :=
  try_except
    (create_connection ;;;
     with_connection (_execute_batch_statements sql_query))
    (fun e =>
       if is_connection_error e then
         raise (mkExn DatabaseConnectionError
                      ("Database connection failed: " ++ str e))
       else
         ret [error_entry sql_query (str e)]).

(** [UnifiedDatabaseEngine.close]. *)
Definition UnifiedDatabaseEngine_close : M unit :=
  engine <- get_engine ;;
  if engine then
    try_except (call EvDispose (sa_dispose env) ;;; set_engine false)
               (fun _ => ret tt)
  else ret tt.

End Engine.

Arguments NoParameters {Cell}.
Arguments PyNone {Cell}.
Arguments PyTrue {Cell}.
Arguments PyInt {Cell} n.
Arguments PyStr {Cell} s.
Arguments EvCreateEngine {Cell}.
Arguments EvConnect {Cell}.
Arguments EvFetchall {Cell}.
Arguments EvCommit {Cell}.
Arguments EvRollback {Cell}.
Arguments EvClose {Cell}.
Arguments EvDispose {Cell}.

(* ------------------------------------------------------------------ *)
(** ** Reading a result dictionary the way the specification names it *)

Section Readers.

Variable Cell : Type.



(** [errorMessage]: the ["error"] key holds a string. *)
Definition error_of (e : Entry Cell) : option string :=
  match dict_get e "error" with
  | Some (PyStr msg) => Some msg
  | _ => None
  end.

(** [statement]: the text under the ["statement"] key. *)
Definition statement_of (e : Entry Cell) : option string :=
  match dict_get e "statement" with
  | Some (PyStr s) => Some s
  | _ => None
  end.



(** The statements handed to [Connection.execute], in call order. *)
Fixpoint executed (t : list (Event Cell)) : list string :=
  match t with
  | [] => []
  | EvExecute sql _ :: rest => sql :: executed rest
  | _ :: rest => executed rest
  end.

(** The entries appended to [results], in call order. *)
Fixpoint appended (t : list (Event Cell)) : list (Entry Cell) :=
  match t with
  | [] => []
  | EvAppend e :: rest => e :: appended rest
  | _ :: rest => appended rest
  end.

Definition is_commit (ev : Event Cell) : bool :=
  match ev with EvCommit => true | _ => false end.

Definition is_rollback (ev : Event Cell) : bool :=
  match ev with EvRollback => true | _ => false end.

(** [commit()] was called on the connection. *)
Definition committed (t : list (Event Cell)) : bool := existsb is_commit t.

(** [rollback()] was called on the connection. *)
Definition rolled_back (t : list (Event Cell)) : bool :=
  existsb is_rollback t.

End Readers.

(* ------------------------------------------------------------------ *)
(** ** Statement-level failure *)

Section Failure.

Variables Cell DState Cursor : Type.
Variable env : Env Cell DState Cursor.

(** The first statement whose execute or fetch step raises when the
    statements run one after the other from world [w]: its index and the
    exception that [conn.execute] or [conn.fetch_all] raised; [None] when
    every statement succeeds. *)
Fixpoint first_failure (statements : list string) (w : World DState)
  : option (nat * Exn) :=
  match statements with
  | [] => None
  | s :: rest =>
      match loop_body env [] s w with
      | (_, _, Raise e) => Some (0, e)
      | (_, w1, Return _) =>
          match first_failure rest w1 with
          | Some (k, e) => Some (S k, e)
          | None => None
          end
      end
  end.

(** The world after the statements up to and including the first failing one
    have run. *)
Fixpoint world_after (statements : list string) (w : World DState)
  : World DState :=
  match statements with
  | [] => w
  | s :: rest =>
      match loop_body env [] s w with
      | (_, w1, Raise _) => w1
      | (_, w1, Return _) => world_after rest w1
      end
  end.

End Failure.

(* ------------------------------------------------------------------ *)
(** ** Vocabulary of the statements below *)

(** Exception translation of the connection methods: an exception of the
    driver comes out as a [DatabaseOperationError] whose message has the
    method's prefix. *)
Definition wrapped {A} (prefix : string) (r : Result A) : Result A :=
  match r with
  | Return a => Return a
  | Raise e => Raise (mkExn DatabaseOperationError (prefix ++ str e))
  end.

Section Vocabulary.

Variables Cell DState Cursor : Type.
Variable env : Env Cell DState Cursor.

(** The entry a statement appends when it succeeds. *)
Definition success_entry (s : string) (entry : Entry Cell) : Prop :=
  if String.eqb (detect_statement_type env s) (FETCH_STATEMENT env)
  then exists rows, entry = fetch_entry env s rows
  else entry = execute_entry env s.

(** The events of one statement that precede its append. *)
Definition statement_calls (s : string) (t : list (Event Cell)) : Prop :=
  exists b, t = [EvExecute s b] \/ t = [EvExecute s b; EvFetchall].



(** The exceptions that may leave the connection scope of [batch]: that of
    [create_connection], or one that [_execute_batch_statements] lets
    through. *)
Definition escapes (sql_query : string) (w : World DState) (e : Exn) : Prop :=
  outcome (create_connection env w) = Raise e \/
  exists t0 w1,
    create_connection env w = (t0, w1, Return tt) /\
    outcome (_execute_batch_statements env sql_query w1) = Raise e.

End Vocabulary.

(* ------------------------------------------------------------------ *)
(** ** The circuit breaker *)

Module CircuitBreaker.

(** Modelled from the spec: [errors/error_handler.py], which defines
    [CircuitBreaker], is not among the sources (only its re-export in
    [errors/__init__.py] is).  The three states of the specification's
    "state machine over {Closed, Open, HalfOpen}". *)
Inductive CircuitBreakerState : Type := Closed | Open | HalfOpen.

(** Modelled from the spec: the configuration, "failureThreshold (int >= 1),
    resetTimeout (duration)"; [CircuitBreakerConfig] is not among the
    sources. *)
Record CircuitBreakerConfig : Type := mkConfig {
  failureThreshold : nat;
  resetTimeout : Z
}.

(** Modelled from the spec: the breaker's own data, absent from the sources:
    its state, the count of consecutive failures and the timestamp of the
    last transition to Open. *)
Record Breaker : Type := mkBreaker {
  state : CircuitBreakerState;
  failures : nat;
  opened_at : Z
}.

(** Modelled from the spec: a breaker, the number of times the wrapped
    operation has been invoked, and the state the operation works on. *)
Record Sys (St : Type) : Type := mkSys {
  breaker : Breaker;
  invocations : nat;
  store : St
}.

(** Modelled from the spec: what a guarded call gives back, either the
    BreakerOpenError of a rejected call or the outcome of the operation. *)
Inductive Outcome (A : Type) : Type :=
| BreakerOpenError
| Ran (r : Result A).
Arguments BreakerOpenError {A}.
Arguments Ran {A} r.

(** Modelled from the spec: a new breaker is Closed with no failure. *)
Definition fresh : Breaker := mkBreaker Closed 0 0.

(** Modelled from the spec: the decision taken when a call arrives at time
    [now].  "Closed: operations pass through"; "Open: operations fail
    immediately ... until resetTimeout has elapsed since the Open transition;
    then transitions to HalfOpen"; "HalfOpen: exactly one trial operation is
    allowed through", so that a call arriving while the trial is under way is
    turned away. *)
Definition before_call (cfg : CircuitBreakerConfig) (now : Z) (b : Breaker)
  : Breaker * bool :=
  match state b with
  | Closed => (b, true)
  | Open =>
      if (resetTimeout cfg <=? now - opened_at b)%Z
      then (mkBreaker HalfOpen (failures b) (opened_at b), true)
      else (b, false)
  | HalfOpen => (b, false)
  end.

(** Modelled from the spec: "success transitions to Closed and resets the
    failure counter"; in Closed a success ends the run of consecutive
    failures. *)
Definition on_success (b : Breaker) : Breaker :=
  mkBreaker Closed 0 (opened_at b).

(** Modelled from the spec: "each failure increments a counter; reaching
    failureThreshold consecutive failures transitions to Open and records the
    transition timestamp"; in HalfOpen "failure transitions back to Open and
    resets the timer". *)
Definition on_failure (cfg : CircuitBreakerConfig) (now : Z) (b : Breaker)
  : Breaker :=
  match state b with
  | Closed =>
      if (failureThreshold cfg <=? S (failures b))%nat
      then mkBreaker Open (S (failures b)) now
      else mkBreaker Closed (S (failures b)) (opened_at b)
  | HalfOpen => mkBreaker Open (failures b) now
  | Open => b
  end.

(** Modelled from the spec: one guarded call of [op] at time [now]. *)
Definition guarded {St A} (cfg : CircuitBreakerConfig) (now : Z)
  (op : St -> St * Result A) (x : Sys St) : Sys St * Outcome A :=
  match before_call cfg now (breaker x) with
  | (b, false) => (mkSys b (invocations x) (store x), BreakerOpenError)
  | (b, true) =>
      match op (store x) with
      | (s, Return a) =>
          (mkSys (on_success b) (S (invocations x)) s, Ran (Return a))
      | (s, Raise e) =>
          (mkSys (on_failure cfg now b) (S (invocations x)) s, Ran (Raise e))
      end
  end.

(** Modelled from the spec: a series of guarded calls, each with its arrival
    time and its operation. *)
Fixpoint series {St A} (cfg : CircuitBreakerConfig)
  (calls : list (Z * (St -> St * Result A))) (x : Sys St) : Sys St :=
  match calls with
  | [] => x
  | (now, op) :: rest => series cfg rest (fst (guarded cfg now op x))
  end.



End CircuitBreaker.

(* ------------------------------------------------------------------ *)
(** ** A scripted connection, for concrete runs *)

Module Mock.

(** What the scripted SQLAlchemy side is told to do. *)
Record Script : Type := mkScript {
  create_engine_error : option string;
  connect_error : option string;
  commit_error : option string;
  rollback_error : option string;
  close_error : option string;
  dispose_error : option string
}.

Definition quiet : Script := mkScript None None None None None None.

(** The statements executed so far. *)
Definition DState : Type := list string.

Definition scripted (error : option string) (d : DState)
  : DState * Result unit :=
  match error with
  | Some msg => (d, Raise (mkExn (OtherException "OperationalError") msg))
  | None => (d, Return tt)
  end.

(** Every statement runs except the text [BAD SQL HERE]. *)
Definition run_execute (sql : string) (b : Bound Z) (d : DState)
  : DState * Result string :=
  if String.eqb sql "BAD SQL HERE"
  then (d, Raise (mkExn (OtherException "ProgrammingError")
                        "syntax error near BAD"))
  else (d ++ [sql], Return sql).

(** Every query gives one row with one column. *)
Definition run_fetchall (cursor : string) (d : DState)
  : DState * Result (list (Row Z)) :=
  (d, Return [[("value", 1%Z)]]).

Definition is_space (c : ascii) : bool :=
  Ascii.eqb c " "%char.

Fixpoint lstrip (s : string) : string :=
  match s with
  | String c rest => if is_space c then lstrip rest else s
  | EmptyString => EmptyString
  end.

Fixpoint rstrip (s : string) : string :=
  match s with
  | EmptyString => EmptyString
  | String c rest =>
      match rstrip rest with
      | EmptyString => if is_space c then EmptyString else String c EmptyString
      | r => String c r
      end
  end.

Definition strip (s : string) : string := rstrip (lstrip s).

(** Cut at every semicolon; [cur] is the piece being read, reversed;
    [quoted] tells whether a single quote is open. *)
Fixpoint cut (s : string) (cur : list ascii) (quoted : bool)
  : Result (list string) :=
  match s with
  | EmptyString =>
      if quoted
      then Raise (mkExn SqlParseError "unterminated quoted string")
      else Return [string_of_list_ascii (rev cur)]
  | String c rest =>
      if Ascii.eqb c "'"%char then cut rest (c :: cur) (negb quoted)
      else if Ascii.eqb c ";"%char && negb quoted then
        match cut rest [] false with
        | Return l => Return (string_of_list_ascii (rev cur) :: l)
        | Raise e => Raise e
        end
      else cut rest (c :: cur) quoted
  end.

Definition nonempty (s : string) : bool :=
  match s with EmptyString => false | _ => true end.

(** A splitter good enough for the runs below: trimmed pieces between
    unquoted semicolons, empty ones dropped. *)
Definition split (sql : string) : Result (list string) :=
  match cut sql [] false with
  | Return l => Return (filter nonempty (map strip l))
  | Raise e => Raise e
  end.

(** Statements that begin with [SELECT] are queries. *)
Definition classify (s : string) : string :=
  if String.prefix "SELECT" s then "fetch" else "execute".

Definition env (script : Script) : Env Z DState string :=
  mkEnv
    (scripted (create_engine_error script))
    (scripted (connect_error script))
    run_execute
    run_fetchall
    (scripted (commit_error script))
    (scripted (rollback_error script))
    (scripted (close_error script))
    (scripted (dispose_error script))
    split
    classify
    "fetch" "execute" "error".

(** Before the first call, and once the connection is open. *)
Definition start : World DState := mkWorld [] false.
Definition connected : World DState := mkWorld [] true.

(** The events of a [create_connection] that succeeds from [start]. *)
Definition connecting : list (Event Z) := [EvCreateEngine; EvConnect].

(** Three statements, the second of which the database refuses. *)
Definition three : string :=
  "INSERT INTO t VALUES (1); BAD SQL HERE; INSERT INTO t VALUES (2)".

Definition three_statements : list string :=
  ["INSERT INTO t VALUES (1)"; "BAD SQL HERE"; "INSERT INTO t VALUES (2)"].

(** What [conn.execute] raises on the refused statement. *)
Definition refused : Exn :=
  mkExn DatabaseOperationError "SQL execution failed: syntax error near BAD".

Definition rollback_fails (msg : string) : Script :=
  mkScript None None None (Some msg) None None.

Definition no_engine (msg : string) : Script :=
  mkScript (Some msg) None None None None None.

Definition no_connection (msg : string) : Script :=
  mkScript None (Some msg) None None None None.

(** An operation on a counter that always fails, and one that succeeds. *)
Definition down (n : nat) : nat * Result unit :=
  (S n, Raise (mkExn (OtherException "OperationalError") "server is down")).

Definition up (n : nat) : nat * Result unit := (S n, Return tt).

End Mock.

(* ------------------------------------------------------------------ *)
(** ** The rest of the connection, the pool and the engine *)

Arguments ret {Cell DState A} a.
Arguments raise {Cell DState A} e.
Arguments get_engine {Cell DState}.
Arguments set_engine {Cell DState} b.

Section Rest.

Variables Cell DState Cursor : Type.
Variable env : Env Cell DState Cursor.

(** [result.fetchone()] followed by [dict(row._mapping) if row else None]. *)
Variable sa_fetchone : Cursor -> DState -> DState * Result (option (Row Cell)).

Notation "x <- m ;; k" := (bind m (fun x => k))
  (at level 61, m at next level, right associativity).
Notation "m ;;; k" := (bind m (fun _ => k))
  (at level 61, right associativity).

(** A call on a SQLAlchemy object that the trace does not keep. *)
Definition unrecorded {A} (op : DState -> DState * Result A)
  : M Cell DState A :=
  fun w =>
    match op (db w) with
    | (d, r) => ([], mkWorld d (has_engine w), r)
    end.

(** [SqlAlchemyConnection.fetch_one]. *)
Definition fetch_one (sql : string) (parameters : option (Parameters Cell))
  : M Cell DState (option (Row Cell)) :=
  try_except
    (result <- call (EvExecute sql (Named (or_empty parameters)))
                    (sa_execute env sql (Named (or_empty parameters))) ;;
     unrecorded (sa_fetchone result))
    (fun e => raise (mkExn DatabaseOperationError
                           ("Single row fetch failed: " ++ str e))).

(** [SqlAlchemyConnectionPool.get_connection]. *)
Definition get_connection : M Cell DState unit :=
  try_except (call EvConnect (sa_connect env))
    (fun e => raise (mkExn DatabaseConnectionError
                           ("Failed to get connection: " ++ str e))).

(** [SqlAlchemyConnectionPool.return_connection], for a connection of the
    class [SqlAlchemyConnection]. *)
Definition return_connection : M Cell DState unit :=
  try_except (close env) (fun _ => ret tt).

(** [SqlAlchemyConnectionPool.close_all]. *)
Definition close_all : M Cell DState unit :=
  try_except (call EvDispose (sa_dispose env)) (fun _ => ret tt).

(** [SqlAlchemyConnectionPool.health_check].  The [with] block is that of
    the SQLAlchemy connection itself, whose [__exit__] closes it. *)
Definition health_check : M Cell DState bool :=
  try_except
    (call EvConnect (sa_connect env) ;;;
     finally_ (call (EvExecute "SELECT 1" NoParameters)
                    (sa_execute env "SELECT 1" NoParameters))
              (call EvClose (sa_close env)) ;;;
     ret true)
    (fun _ => ret false).

(** [UnifiedDatabaseEngine.create_connection_pool]; the pool is given by its
    [pool_size]. *)
Definition create_connection_pool (pool_size : Z) : M Cell DState Z :=
  engine <- get_engine ;;
  (if negb engine then _create_engine env ;;; set_engine true else ret tt) ;;;
  ret pool_size.

(** [UnifiedDatabaseEngine.test_connection]. *)
Definition test_connection : M Cell DState bool :=
  try_except
    (create_connection env ;;;
     with_connection env (fetch_one "SELECT 1" None) ;;;
     ret true)
    (fun _ => ret false).

(** What [get_database_info] reads: the configuration ([config.url],
    [config.connection.timeout], [config.connection.max_connections]) and
    the dialect of the engine ([dialect.name], [dialect.driver]). *)
Record Info : Type := mkInfo {
  url : string;
  connection_timeout : PyVal Cell;
  max_connections : PyVal Cell;
  dialect_name : string;
  dialect_driver : string
}.

(** [UnifiedDatabaseEngine.get_database_info]. *)
Definition get_database_info (i : Info) (w : World DState) : Entry Cell :=
  [("url", PyStr (url i));
   ("connection_timeout", connection_timeout i);
   ("max_connections", max_connections i);
   ("dialect", if has_engine w then PyStr (dialect_name i) else PyNone);
   ("driver", if has_engine w then PyStr (dialect_driver i) else PyNone)].

End Rest.

(* ------------------------------------------------------------------ *)
(** ** What the driver answers, statement by statement *)

Section Driver.

Variables Cell DState Cursor : Type.
Variable env : Env Cell DState Cursor.

(** Reference, stated on the SQLAlchemy connection alone: what the driver
    answers when a statement reaches it in state [d].  A query is executed
    and its rows fetched; any other statement is executed.  The answer is
    the rows of a query, nothing for another statement, or the exception of
    the driver; the state is the one the driver is left in. *)
Definition driver_runs (s : string) (d : DState)
  : DState * Result (option (list (Row Cell))) :=
  if String.eqb (detect_statement_type env s) (FETCH_STATEMENT env) then
    match sa_execute env s (Named []) d with
    | (d1, Raise e) => (d1, Raise e)
    | (d1, Return cursor) =>
        match sa_fetchall env cursor d1 with
        | (d2, Raise e) => (d2, Raise e)
        | (d2, Return rows) => (d2, Return (Some rows))
        end
    end
  else
    match sa_execute env s NoParameters d with
    | (d1, Raise e) => (d1, Raise e)
    | (d1, Return _) => (d1, Return None)
    end.

(** Reference: the statements that reach the driver when they are sent one
    after the other from state [d] until the driver refuses one, each with
    the driver's answer.  The refused statement, if any, is the last. *)
Fixpoint attempted (statements : list string) (d : DState)
  : list (string * Result (option (list (Row Cell)))) :=
  match statements with
  | [] => []
  | s :: rest =>
      match driver_runs s d with
      | (d1, Return answer) => (s, Return answer) :: attempted rest d1
      | (_, Raise e) => [(s, Raise e)]
      end
  end.

(** Reference: the index of the first statement that the driver refuses,
    with the driver's exception; [None] when it accepts them all. *)
Fixpoint refusal (statements : list string) (d : DState)
  : option (nat * Exn) :=
  match statements with
  | [] => None
  | s :: rest =>
      match driver_runs s d with
      | (_, Raise e) => Some (0, e)
      | (d1, Return _) =>
          match refusal rest d1 with
          | Some (k, e) => Some (S k, e)
          | None => None
          end
      end
  end.

(** Reference: the state of the driver once the attempted statements have
    run. *)
Fixpoint driver_state_after (statements : list string) (d : DState)
  : DState :=
  match statements with
  | [] => d
  | s :: rest =>
      match driver_runs s d with
      | (d1, Return _) => driver_state_after rest d1
      | (d1, Raise _) => d1
      end
  end.

(** The exception that the connection wrapper makes of the driver's
    exception [e] for statement [s]. *)
Definition statement_error (s : string) (e : Exn) : Exn :=
  mkExn DatabaseOperationError
    ((if String.eqb (detect_statement_type env s) (FETCH_STATEMENT env)
      then "Data fetch failed: " else "SQL execution failed: ") ++ str e).

(** The entry that stands for one attempted statement: the rows and their
    number, or success, or the message of the error. *)
Definition entry_of (a : string * Result (option (list (Row Cell))))
  : Entry Cell :=
  match snd a with
  | Return (Some rows) => fetch_entry env (fst a) rows
  | Return None => execute_entry env (fst a)
  | Raise e => error_entry env (fst a) (str (statement_error (fst a) e))
  end.

(** The exception with which the first refused statement of [l] leaves the
    connection wrapper; [None] when the driver refused none. *)
Fixpoint refused (l : list (string * Result (option (list (Row Cell)))))
  : option Exn :=
  match l with
  | [] => None
  | a :: rest =>
      match snd a with
      | Raise e => Some (statement_error (fst a) e)
      | Return _ => refused rest
      end
  end.

(** The attempted statements that the driver accepted. *)
Definition accepted (l : list (string * Result (option (list (Row Cell)))))
  : list (string * Result (option (list (Row Cell)))) :=
  filter (fun a => negb (is_Raise (snd a))) l.

End Driver.

(* ------------------------------------------------------------------ *)
(** ** More readers of a trace *)

Section Counting.

Variable Cell : Type.

Definition is_close (ev : Event Cell) : bool :=
  match ev with EvClose => true | _ => false end.

Definition is_dispose (ev : Event Cell) : bool :=
  match ev with EvDispose => true | _ => false end.

Definition is_create_engine (ev : Event Cell) : bool :=
  match ev with EvCreateEngine => true | _ => false end.

Definition is_connect (ev : Event Cell) : bool :=
  match ev with EvConnect => true | _ => false end.

(** An event of the statement loop and of the end of the transaction. *)
Definition is_statement_event (ev : Event Cell) : bool :=
  match ev with
  | EvExecute _ _ | EvFetchall | EvAppend _ | EvCommit | EvRollback => true
  | _ => false
  end.

(** How many events of [t] satisfy [p]. *)
Definition occurrences (p : Event Cell -> bool) (t : list (Event Cell))
  : nat :=
  List.length (filter p t).

End Counting.

(* ------------------------------------------------------------------ *)
(** ** The names of [errors/__init__.py] *)

Module Errors.

(** The [from ... import (...)] statements, module by module. *)
Definition imports : list (string * list string) :=
  [("splurge_sql_runner.errors.base_errors",
    ["SplurgeSqlRunnerError"; "ConfigurationError"; "ConfigValidationError";
     "ConfigFileError"; "ValidationError"; "OperationError"]);
   ("splurge_sql_runner.errors.database_errors",
    ["DatabaseError"; "DatabaseConnectionError"; "DatabaseOperationError";
     "DatabaseBatchError"; "DatabaseEngineError"; "DatabaseTimeoutError";
     "DatabaseAuthenticationError"]);
   ("splurge_sql_runner.errors.sql_errors",
    ["SqlError"; "SqlParseError"; "SqlFileError"; "SqlValidationError";
     "SqlExecutionError"]);
   ("splurge_sql_runner.errors.security_errors",
    ["SecurityError"; "SecurityValidationError"; "SecurityFileError";
     "SecurityUrlError"]);
   ("splurge_sql_runner.errors.cli_errors",
    ["CliError"; "CliArgumentError"; "CliFileError"; "CliExecutionError";
     "CliSecurityError"]);
   ("splurge_sql_runner.errors.error_handler",
    ["ErrorHandler"; "ErrorRecoveryStrategy"; "CircuitBreaker";
     "RetryStrategy"; "ErrorContext"; "CircuitBreakerConfig"; "RetryConfig"]);
   ("splurge_sql_runner.errors.error_recovery",
    ["DatabaseErrorRecovery"; "SqlErrorRecovery"; "SecurityErrorRecovery";
     "CliErrorRecovery"]);
   ("splurge_sql_runner.errors.typed_error_context",
    ["DatabaseErrorContext"; "SqlErrorContext"; "SecurityErrorContext";
     "CliErrorContext"; "create_database_error_context";
     "create_sql_error_context"; "create_security_error_context";
     "create_cli_error_context"])].

(** The names that the imports bind in the package. *)
Definition bound : list string := List.concat (map snd imports).

Definition __all__ : list string :=
  ["SplurgeSqlRunnerError"; "ConfigurationError"; "ConfigValidationError";
   "ConfigFileError"; "ValidationError"; "OperationError";
   "DatabaseError"; "DatabaseConnectionError"; "DatabaseOperationError";
   "DatabaseBatchError"; "DatabaseEngineError"; "DatabaseTimeoutError";
   "DatabaseAuthenticationError";
   "SqlError"; "SqlParseError"; "SqlFileError"; "SqlValidationError";
   "SqlExecutionError";
   "SecurityError"; "SecurityValidationError"; "SecurityFileError";
   "SecurityUrlError";
   "CliError"; "CliArgumentError"; "CliFileError"; "CliExecutionError";
   "CliSecurityError";
   "ErrorHandler"; "ErrorRecoveryStrategy"; "CircuitBreaker";
   "RetryStrategy"; "ErrorContext"; "CircuitBreakerConfig"; "RetryConfig";
   "DatabaseErrorRecovery"; "SqlErrorRecovery"; "SecurityErrorRecovery";
   "CliErrorRecovery";
   "DatabaseErrorContext"; "SqlErrorContext"; "SecurityErrorContext";
   "CliErrorContext"; "create_database_error_context";
   "create_sql_error_context"; "create_security_error_context";
   "create_cli_error_context"].

(** [name in names]. *)
Definition mem (name : string) (names : list string) : bool :=
  existsb (String.eqb name) names.

End Errors.

(* ------------------------------------------------------------------ *)
(** ** More of the scripted connection *)

Module MockRest.

(** Every single-row fetch gives the one row of the scripted queries. *)
Definition run_fetchone (cursor : string) (d : Mock.DState)
  : Mock.DState * Result (option (Row Z)) :=
  (d, Return (Some [("value", 1%Z)])).

Definition commit_fails (msg : string) : Mock.Script :=
  Mock.mkScript None None (Some msg) None None None.

Definition info : Info Z :=
  mkInfo "sqlite:///:memory:" (PyInt 30) (PyInt 5) "sqlite" "pysqlite".

End MockRest.

(* ================================================================== *)
(** * Properties *)

(** ** Strings *)

Lemma prefix_one_char (c : ascii) (s : string) :
  String.prefix (String c EmptyString) s = true <->
  exists rest, s = String c rest.
Proof.
  destruct s as [|a s]; simpl.
  - split; [discriminate | intros [r H]; discriminate].
  - destruct (ascii_dec c a) as [->|Hne].
    + split; [eauto | intros _; destruct s; reflexivity].
    + split; [discriminate | intros [r H]; congruence].
Qed.

(** [c in s] for a single character is membership in the characters of
    [s]. *)
Lemma contains_char (c : ascii) (s : string) :
  PyStr.contains (String c EmptyString) s = true <->
  In c (list_ascii_of_string s).
Proof.
  induction s as [|a s IH].
  - simpl. split; [discriminate | tauto].
  - cbn [PyStr.contains list_ascii_of_string In].
    destruct (String.prefix (String c EmptyString) (String a s)) eqn:Hp.
    + apply prefix_one_char in Hp as [r Hr]. injection Hr as -> _.
      split; auto.
    + rewrite IH. split; [tauto|].
      intros [->|H]; [|exact H].
      exfalso.
      assert (String.prefix (String c EmptyString) (String c s) = true)
        by (apply prefix_one_char; eauto).
      congruence.
Qed.

Lemma prefix_spec (p s : string) :
  String.prefix p s = true <-> exists post, s = (p ++ post)%string.
Proof.
  revert s. induction p as [|a p IH]; intros s.
  - destruct s; simpl; split; eauto.
  - destruct s as [|b s]; simpl.
    + split; [discriminate | intros [post H]; discriminate].
    + destruct (ascii_dec a b) as [->|Hne].
      * rewrite IH. split; intros [post H]; exists post; congruence.
      * split; [discriminate | intros [post H]; congruence].
Qed.

(** [sub in s] holds exactly when [s] is some text, then [sub], then some
    text. *)
Lemma contains_spec (sub s : string) :
  PyStr.contains sub s = true <-> exists pre post, s = (pre ++ sub ++ post)%string.
Proof.
  induction s as [|c s IH].
  - cbn [PyStr.contains].
    destruct (String.prefix sub EmptyString) eqn:Hp.
    + apply prefix_spec in Hp as [post Hp]. split; [|reflexivity].
      intros _. exists EmptyString, post. exact Hp.
    + split; [discriminate|]. intros (pre & post & H).
      destruct pre; [|discriminate].
      assert (String.prefix sub EmptyString = true) by (apply prefix_spec; eauto).
      congruence.
  - cbn [PyStr.contains].
    destruct (String.prefix sub (String c s)) eqn:Hp.
    + apply prefix_spec in Hp as [post Hp]. split; [|reflexivity].
      intros _. exists EmptyString, post. exact Hp.
    + rewrite IH. split.
      * intros (pre & post & ->). exists (String c pre), post. reflexivity.
      * intros (pre & post & H). destruct pre as [|a pre].
        -- assert (String.prefix sub (String c s) = true)
             by (apply prefix_spec; eauto).
           congruence.
        -- injection H as -> ->. eauto.
Qed.

Lemma string_app_assoc (a b c : string) :
  ((a ++ b) ++ c = a ++ b ++ c)%string.
Proof. induction a; simpl; congruence. Qed.

(** A text that contains [a ++ b ++ c] contains [b]. *)
Lemma contains_inner (a b c s : string) :
  PyStr.contains (a ++ b ++ c)%string s = true ->
  PyStr.contains b s = true.
Proof.
  rewrite !contains_spec. intros (pre & post & ->).
  exists (pre ++ a)%string, (c ++ post)%string.
  rewrite !string_app_assoc. reflexivity.
Qed.

(** X17.  The six tests of the handler of [batch] come down to three: the
    exception is a [DatabaseConnectionError], or its lower-cased message
    contains "connect", or it contains "timeout". *)
Lemma is_connection_error_short (e : Exn) :
  is_connection_error e =
  is_DatabaseConnectionError e
  || PyStr.contains "connect" (PyStr.lower (str e))
  || PyStr.contains "timeout" (PyStr.lower (str e)).
Proof.
  unfold is_connection_error.
  set (s := PyStr.lower (str e)).
  destruct (PyStr.contains "connect" s) eqn:Hc.
  - rewrite !orb_true_r. reflexivity.
  - assert (H1 : PyStr.contains "connection" s = false).
    { destruct (PyStr.contains "connection" s) eqn:H; [|reflexivity].
      apply (contains_inner EmptyString "connect" "ion") in H. congruence. }
    assert (H2 : PyStr.contains "unable to connect" s = false).
    { destruct (PyStr.contains "unable to connect" s) eqn:H; [|reflexivity].
      apply (contains_inner "unable to " "connect" EmptyString) in H. congruence. }
    assert (H3 : PyStr.contains "connection refused" s = false).
    { destruct (PyStr.contains "connection refused" s) eqn:H; [|reflexivity].
      apply (contains_inner EmptyString "connect" "ion refused") in H. congruence. }
    rewrite H1, H2, H3, !orb_false_r. reflexivity.
Qed.

(** ** Traces *)

Section TraceFacts.

Variable Cell : Type.
Implicit Types t u : list (Event Cell).

Lemma executed_app t u : executed (t ++ u) = executed t ++ executed u.
Proof.
  induction t as [|ev t IH]; simpl; [reflexivity|].
  destruct ev; simpl; rewrite ?IH; reflexivity.
Qed.

Lemma appended_app t u : appended (t ++ u) = appended t ++ appended u.
Proof.
  induction t as [|ev t IH]; simpl; [reflexivity|].
  destruct ev; simpl; rewrite ?IH; reflexivity.
Qed.

Lemma committed_app t u : committed (t ++ u) = committed t || committed u.
Proof. apply existsb_app. Qed.

Lemma rolled_back_app t u :
  rolled_back (t ++ u) = rolled_back t || rolled_back u.
Proof. apply existsb_app. Qed.

End TraceFacts.

(** ** The connection *)

Section ConnectionFacts.

Variables Cell DState Cursor : Type.
Variable env : Env Cell DState Cursor.
Implicit Types (w : World DState) (t : list (Event Cell)).

Lemma commit_run w :
  commit env w =
  ([EvCommit], mkWorld (fst (sa_commit env (db w))) (has_engine w),
   wrapped "Commit failed: " (snd (sa_commit env (db w)))).
Proof.
  unfold commit, try_except, call, raise.
  destruct (sa_commit env (db w)) as [d [[]|e]]; reflexivity.
Qed.

Lemma rollback_run w :
  rollback env w =
  ([EvRollback], mkWorld (fst (sa_rollback env (db w))) (has_engine w),
   wrapped "Rollback failed: " (snd (sa_rollback env (db w)))).
Proof.
  unfold rollback, try_except, call, raise.
  destruct (sa_rollback env (db w)) as [d [[]|e]]; reflexivity.
Qed.

Lemma close_run w :
  close env w =
  ([EvClose], mkWorld (fst (sa_close env (db w))) (has_engine w), Return tt).
Proof.
  unfold close, try_except, call, ret.
  destruct (sa_close env (db w)) as [d [[]|e]]; reflexivity.
Qed.

Lemma with_connection_run {A} (body : M Cell DState A) w :
  with_connection env body w =
  (trace (body w) ++ [EvClose],
   mkWorld (fst (sa_close env (db (world (body w)))))
           (has_engine (world (body w))),
   outcome (body w)).
Proof.
  unfold with_connection, finally_, trace, world, outcome.
  destruct (body w) as [[t1 w1] r]. rewrite close_run. reflexivity.
Qed.

End ConnectionFacts.

(** ** The statement loop *)

Section LoopFacts.

Variables Cell DState Cursor : Type.
Variable env : Env Cell DState Cursor.
Implicit Types (w : World DState) (t : list (Event Cell)).
Implicit Types (rs : list (Entry Cell)) (l : Locals Cell).

Lemma loop_body_cases s w :
  (exists t w1 e,
      (forall rs, loop_body env rs s w = (t, w1, Raise e)) /\
      statement_calls s t)
  \/
  (exists t w1 entry,
      (forall rs, loop_body env rs s w
                  = (t ++ [EvAppend entry], w1, Return (rs ++ [entry]))) /\
      statement_calls s t /\ success_entry env s entry).
Proof.
  unfold loop_body, success_entry, statement_calls.
  destruct (String.eqb (detect_statement_type env s) (FETCH_STATEMENT env)).
  - unfold fetch_all, try_except, bind, call, raise, append, tell, ret.
    cbv [or_empty truthy dict_of].
    destruct (sa_execute env s (Named []) (db w)) as [d1 [c|e]]; simpl.
    + destruct (sa_fetchall env c d1) as [d2 [rows|e]]; simpl.
      * right.
        exists [EvExecute s (Named []); EvFetchall], (mkWorld d2 (has_engine w)),
          (fetch_entry env s rows).
        split; [intros rs; reflexivity|]. split; eauto.
      * left. do 3 eexists. split; [intros rs; reflexivity|]. eauto.
    + left. do 3 eexists. split; [intros rs; reflexivity|]. eauto.
  - unfold execute, try_except, bind, call, raise, append, tell, ret.
    cbv [truthy andb].
    destruct (sa_execute env s NoParameters (db w)) as [d1 [c|e]]; simpl.
    + right.
      exists [EvExecute s NoParameters], (mkWorld d1 (has_engine w)),
        (execute_entry env s).
      split; [intros rs; reflexivity|]. split; eauto.
    + left. do 3 eexists. split; [intros rs; reflexivity|]. eauto.
Qed.

Lemma statement_calls_executed s t : statement_calls s t -> executed t = [s].
Proof. intros [b [->| ->]]; reflexivity. Qed.

Lemma statement_calls_appended s t : statement_calls s t -> appended t = [].
Proof. intros [b [->| ->]]; reflexivity. Qed.

Lemma statement_calls_committed s t :
  statement_calls s t -> committed t = false.
Proof. intros [b [->| ->]]; reflexivity. Qed.

Lemma statement_calls_rolled_back s t :
  statement_calls s t -> rolled_back t = false.
Proof. intros [b [->| ->]]; reflexivity. Qed.

Lemma success_entry_statement s entry :
  success_entry env s entry -> statement_of entry = Some s.
Proof.
  unfold success_entry.
  destruct (String.eqb _ _); [intros [rows ->]| intros ->]; reflexivity.
Qed.

Lemma success_entry_no_error s entry :
  success_entry env s entry -> error_of entry = None.
Proof.
  unfold success_entry.
  destruct (String.eqb _ _); [intros [rows ->]| intros ->]; reflexivity.
Qed.

Lemma last_cons {A} (x : A) (xs : list A) : forall d,
  last (x :: xs) d = last xs x.
Proof.
  revert x. induction xs as [|y ys IH]; intros x d; [reflexivity|].
  change (last (x :: y :: ys) d) with (last (y :: ys) d).
  rewrite (IH y d), (IH y x). reflexivity.
Qed.

(** The loop when every statement succeeds. *)
Lemma for_statements_succeed statements : forall l w,
  first_failure env statements w = None ->
  exists t new,
    for_statements env statements l w
    = (t, world_after env statements w,
       Return (mkLocals (results l ++ new)
                        (last (map Some statements) (stmt l)), None)) /\
    executed t = statements /\
    appended t = new /\
    Forall2 (success_entry env) statements new /\
    committed t = false /\ rolled_back t = false.
Proof.
  induction statements as [|s rest IH]; intros l w Hff.
  - exists [], []. simpl. unfold ret. rewrite app_nil_r.
    destruct l; simpl. repeat split; constructor.
  - cbn [first_failure world_after] in *.
    destruct (loop_body_cases s w) as
      [(t1 & w1 & e & Hrun & Hc) | (t1 & w1 & entry & Hrun & Hc & Hs)].
    + rewrite (Hrun []) in Hff. discriminate.
    + rewrite (Hrun []) in *.
      destruct (first_failure env rest w1) as [[k e]|] eqn:Hrest;
        [discriminate|].
      destruct (IH (mkLocals (results l ++ [entry]) (Some s)) w1 Hrest)
        as (t2 & new & Hloop & Hex & Hap & Hsh & Hco & Hrb).
      exists ((t1 ++ [EvAppend entry]) ++ t2), (entry :: new).
      cbn [for_statements]. unfold bind at 1, attempt.
      rewrite (Hrun (results l)). rewrite Hloop. cbn [results stmt].
      rewrite <- !app_assoc. cbn [app].
      split.
      { cbn [map]. rewrite last_cons. reflexivity. }
      rewrite !executed_app, !appended_app, !committed_app, !rolled_back_app.
      rewrite (statement_calls_executed Hc), (statement_calls_appended Hc),
        (statement_calls_committed Hc), (statement_calls_rolled_back Hc).
      simpl. fold (committed t2) (rolled_back t2).
      rewrite Hex, Hap, Hco, Hrb.
      repeat split. constructor; assumption.
Qed.

(** The loop when statement [k] is the first to fail. *)
Lemma for_statements_fail statements : forall l w k e,
  first_failure env statements w = Some (k, e) ->
  exists t new s,
    for_statements env statements l w
    = (t, world_after env statements w,
       Return (mkLocals (results l ++ new) (Some s), Some e)) /\
    nth_error statements k = Some s /\
    executed t = firstn (S k) statements /\
    appended t = new /\
    Forall2 (success_entry env) (firstn k statements) new /\
    committed t = false /\ rolled_back t = false.
Proof.
  induction statements as [|s rest IH]; intros l w k e Hff.
  - discriminate.
  - cbn [first_failure world_after] in *.
    destruct (loop_body_cases s w) as
      [(t1 & w1 & e1 & Hrun & Hc) | (t1 & w1 & entry & Hrun & Hc & Hs)].
    + rewrite (Hrun []) in *. injection Hff as <- <-.
      exists t1, [], s.
      cbn [for_statements]. unfold bind at 1, attempt.
      rewrite (Hrun (results l)). unfold ret. rewrite !app_nil_r.
      rewrite (statement_calls_executed Hc), (statement_calls_appended Hc),
        (statement_calls_committed Hc), (statement_calls_rolled_back Hc).
      simpl. repeat split. constructor.
    + rewrite (Hrun []) in *.
      destruct (first_failure env rest w1) as [[k1 e1]|] eqn:Hrest;
        [|discriminate].
      injection Hff as <- <-.
      destruct (IH (mkLocals (results l ++ [entry]) (Some s)) w1 k1 e1 Hrest)
        as (t2 & new & s2 & Hloop & Hnth & Hex & Hap & Hsh & Hco & Hrb).
      exists ((t1 ++ [EvAppend entry]) ++ t2), (entry :: new), s2.
      cbn [for_statements]. unfold bind at 1, attempt.
      rewrite (Hrun (results l)). rewrite Hloop. cbn [results stmt].
      rewrite <- !app_assoc. cbn [app].
      split; [reflexivity|].
      rewrite !executed_app, !appended_app, !committed_app, !rolled_back_app.
      rewrite (statement_calls_executed Hc), (statement_calls_appended Hc),
        (statement_calls_committed Hc), (statement_calls_rolled_back Hc).
      simpl. fold (committed t2) (rolled_back t2).
      rewrite Hex, Hap, Hco, Hrb.
      repeat split; try assumption. constructor; assumption.
Qed.

End LoopFacts.

(** ** Order of the calls *)

Section OrderFacts.

Variable Cell : Type.
Implicit Types t pre post : list (Event Cell).




End OrderFacts.

Section BatchFacts.

Variables Cell DState Cursor : Type.
Variable env : Env Cell DState Cursor.
Implicit Types (w : World DState) (t : list (Event Cell)).
Implicit Types (rs : list (Entry Cell)) (l : Locals Cell).



(** The [except] clause, case by case. *)
Lemma except_block_run l e w :
  except_block env l e w =
  let w1 := mkWorld (fst (sa_rollback env (db w))) (has_engine w) in
  match snd (sa_rollback env (db w)) with
  | Raise e1 =>
      ([EvRollback], w1,
       Raise (mkExn DatabaseOperationError ("Rollback failed: " ++ str e1)))
  | Return _ =>
      match stmt l with
      | None =>
          ([EvRollback], w1,
           Raise (mkExn UnboundLocalError
              "cannot access local variable 'stmt' where it is not associated with a value"))
      | Some s =>
          ([EvRollback; EvAppend (error_entry env s (str e))], w1,
           Return (results l ++ [error_entry env s (str e)]))
      end
  end.
Proof.
  unfold except_block, bind. rewrite rollback_run.
  destruct (snd (sa_rollback env (db w))) as [[]|e1]; simpl; [|reflexivity].
  destruct (stmt l); reflexivity.
Qed.

(** [_execute_batch_statements] once the text is split. *)
Lemma execute_batch_run sql_query statements w :
  parse_sql_statements env sql_query = Return statements ->
  _execute_batch_statements env sql_query w =
  match for_statements env statements (mkLocals [] None) w with
  | (t1, w1, Return (l, Some e)) =>
      match except_block env l e w1 with
      | (t2, w2, r) => (t1 ++ t2, w2, r)
      end
  | (t1, w1, Return (l, None)) =>
      let w2 := mkWorld (fst (sa_commit env (db w1))) (has_engine w1) in
      match snd (sa_commit env (db w1)) with
      | Return _ => (t1 ++ [EvCommit], w2, Return (results l))
      | Raise e =>
          match except_block env l
                  (mkExn DatabaseOperationError ("Commit failed: " ++ str e))
                  w2 with
          | (t2, w3, r) => (t1 ++ EvCommit :: t2, w3, r)
          end
      end
  | (t1, w1, Raise e) => (t1, w1, Raise e)
  end.
Proof.
  intros Hparse.
  unfold _execute_batch_statements, bind at 1, lift. rewrite Hparse.
  cbn [app]. unfold bind at 1, try_block, bind at 1.
  destruct (for_statements env statements _ w) as [[t1 w1] [[l [e|]]|e]].
  - unfold ret. rewrite app_nil_r.
    destruct (except_block env l e w1) as [[t2 w2] r]. reflexivity.
  - unfold bind, attempt. rewrite commit_run. unfold ret. cbn [wrapped].
    destruct (snd (sa_commit env (db w1))) as [[]|e]; cbn [wrapped].
    + rewrite !app_nil_r. reflexivity.
    + rewrite !app_nil_r.
      destruct (except_block env l _ _) as [[t2 w3] r].
      rewrite <- app_assoc. reflexivity.
  - reflexivity.
Qed.

(** [batch] once the connection is there. *)
Lemma batch_connected sql_query w t0 w1 :
  create_connection env w = (t0, w1, Return tt) ->
  batch env sql_query w =
  let inner := _execute_batch_statements env sql_query w1 in
  let w2 := mkWorld (fst (sa_close env (db (world inner))))
                    (has_engine (world inner)) in
  (t0 ++ trace inner ++ [EvClose], w2,
   match outcome inner with
   | Return rs => Return rs
   | Raise e =>
       if is_connection_error e then
         Raise (mkExn DatabaseConnectionError
                      ("Database connection failed: " ++ str e))
       else Return [error_entry env sql_query (str e)]
   end).
Proof.
  intros Hconn. unfold batch, try_except, bind. rewrite Hconn.
  rewrite with_connection_run.
  destruct (outcome _) as [rs|e]; [reflexivity|].
  destruct (is_connection_error e); unfold raise, ret;
    rewrite app_nil_r; reflexivity.
Qed.

(** [batch] when no connection can be had. *)
Lemma batch_unconnected sql_query w t0 w1 e :
  create_connection env w = (t0, w1, Raise e) ->
  batch env sql_query w =
  (t0, w1,
   if is_connection_error e then
     Raise (mkExn DatabaseConnectionError
                  ("Database connection failed: " ++ str e))
   else Return [error_entry env sql_query (str e)]).
Proof.
  intros Hconn. unfold batch, try_except, bind. rewrite Hconn.
  destruct (is_connection_error e); unfold raise, ret;
    rewrite app_nil_r; reflexivity.
Qed.

End BatchFacts.

(** ** Whole runs *)

Section RunFacts.

Variables Cell DState Cursor : Type.
Variable env : Env Cell DState Cursor.
Implicit Types (w : World DState) (t : list (Event Cell)).
Implicit Types (rs : list (Entry Cell)) (l : Locals Cell).

(** The run in which statement [k] is the first to fail. *)
Lemma execute_batch_failure sql_query statements w k e :
  parse_sql_statements env sql_query = Return statements ->
  first_failure env statements w = Some (k, e) ->
  exists t new s,
    nth_error statements k = Some s /\
    executed t = firstn (S k) statements /\
    appended t = new /\
    Forall2 (success_entry env) (firstn k statements) new /\
    committed t = false /\ rolled_back t = false /\
    _execute_batch_statements env sql_query w =
    let w1 := world_after env statements w in
    let w2 := mkWorld (fst (sa_rollback env (db w1))) (has_engine w1) in
    match snd (sa_rollback env (db w1)) with
    | Raise e1 =>
        (t ++ [EvRollback], w2,
         Raise (mkExn DatabaseOperationError
                      ("Rollback failed: " ++ str e1)))
    | Return _ =>
        (t ++ [EvRollback; EvAppend (error_entry env s (str e))], w2,
         Return (new ++ [error_entry env s (str e)]))
    end.
Proof.
  intros Hparse Hff.
  destruct (for_statements_fail env statements (mkLocals [] None) w Hff)
    as (t & new & s & Hloop & Hnth & Hex & Hap & Hsh & Hco & Hrb).
  exists t, new, s. repeat (split; [assumption|]).
  rewrite (execute_batch_run env sql_query w Hparse), Hloop.
  rewrite except_block_run. cbn [stmt results app]. cbv zeta.
  destruct (snd (sa_rollback env _)); reflexivity.
Qed.

(** The run in which every statement succeeds. *)
Lemma execute_batch_success sql_query statements w :
  parse_sql_statements env sql_query = Return statements ->
  first_failure env statements w = None ->
  exists t new,
    executed t = statements /\
    appended t = new /\
    Forall2 (success_entry env) statements new /\
    committed t = false /\ rolled_back t = false /\
    _execute_batch_statements env sql_query w =
    let w1 := world_after env statements w in
    let w2 := mkWorld (fst (sa_commit env (db w1))) (has_engine w1) in
    let w3 := mkWorld (fst (sa_rollback env (db w2))) (has_engine w2) in
    match snd (sa_commit env (db w1)) with
    | Return _ => (t ++ [EvCommit], w2, Return new)
    | Raise e =>
        match snd (sa_rollback env (db w2)) with
        | Raise e1 =>
            (t ++ [EvCommit; EvRollback], w3,
             Raise (mkExn DatabaseOperationError
                          ("Rollback failed: " ++ str e1)))
        | Return _ =>
            match last (map Some statements) None with
            | None =>
                (t ++ [EvCommit; EvRollback], w3,
                 Raise (mkExn UnboundLocalError
                    "cannot access local variable 'stmt' where it is not associated with a value"))
            | Some s =>
                (t ++ [EvCommit; EvRollback;
                       EvAppend (error_entry env s ("Commit failed: " ++ str e))],
                 w3,
                 Return (new ++
                         [error_entry env s ("Commit failed: " ++ str e)]))
            end
        end
    end.
Proof.
  intros Hparse Hff.
  destruct (for_statements_succeed env statements (mkLocals [] None) w Hff)
    as (t & new & Hloop & Hex & Hap & Hsh & Hco & Hrb).
  exists t, new. repeat (split; [assumption|]).
  rewrite (execute_batch_run env sql_query w Hparse), Hloop.
  cbn [stmt results app]. cbv zeta.
  destruct (snd (sa_commit env _)) as [[]|e]; [reflexivity|].
  rewrite except_block_run. cbn [stmt results db has_engine str exn_msg].
  cbv zeta.
  destruct (snd (sa_rollback env _)); [|reflexivity].
  destruct (last (map Some statements) None); reflexivity.
Qed.

Lemma Forall2_length_eq {A B} (R : A -> B -> Prop) xs ys :
  Forall2 R xs ys -> List.length xs = List.length ys.
Proof. induction 1; simpl; congruence. Qed.

Lemma first_failure_bound statements : forall w k e,
  first_failure env statements w = Some (k, e) ->
  k < List.length statements.
Proof.
  induction statements as [|s rest IH]; intros w k e H; [discriminate|].
  cbn [first_failure] in H.
  destruct (loop_body env [] s w) as [[t1 w1] [r|e1]].
  - destruct (first_failure env rest w1) as [[k1 e2]|] eqn:Hr; [|discriminate].
    injection H as <- <-. apply IH in Hr. simpl. lia.
  - injection H as <- <-. simpl. lia.
Qed.

(** Entry [i] of successful statements is statement [i]'s. *)
Lemma success_entries_nth statements new : 
  Forall2 (success_entry env) statements new ->
  forall i s entry,
    nth_error statements i = Some s -> nth_error new i = Some entry ->
    statement_of entry = Some s.
Proof.
  induction 1 as [|s0 e0 ss es H0 _ IH]; intros i s entry Hs He.
  - destruct i; discriminate.
  - destruct i as [|i]; simpl in *.
    + injection Hs as <-. injection He as <-.
      eapply success_entry_statement; eassumption.
    + eapply IH; eassumption.
Qed.

Lemma create_connection_quiet w :
  let t := trace (create_connection env w) in
  executed t = [] /\ appended t = [] /\
  committed t = false /\ rolled_back t = false.
Proof.
  unfold create_connection, _create_engine, bind, get_engine, set_engine,
    try_except, call, raise, ret, trace.
  destruct (has_engine w); simpl.
  - destruct (sa_connect env (db w)) as [d [[]|e]]; simpl; auto.
  - destruct (sa_create_engine env (db w)) as [d [[]|e]]; simpl; auto.
    destruct (sa_connect env d) as [d1 [[]|e]]; simpl; auto.
Qed.

(** [create_connection] raises one of two exceptions. *)
Lemma create_connection_raises w e :
  outcome (create_connection env w) = Raise e ->
  (exists e0, e = mkExn DatabaseOperationError
                        ("Failed to create database engine: " ++ str e0) /\
              has_engine w = false /\
              snd (sa_create_engine env (db w)) = Raise e0)
  \/
  (exists e0, e = mkExn DatabaseConnectionError
                        ("Failed to create connection: " ++ str e0)).
Proof.
  unfold create_connection, _create_engine, bind, get_engine, set_engine,
    try_except, call, raise, ret, outcome.
  destruct (has_engine w); simpl.
  - destruct (sa_connect env (db w)) as [d [[]|e0]]; simpl;
      [discriminate|]. intros [= <-]. right. eauto.
  - destruct (sa_create_engine env (db w)) as [d [[]|e0]]; simpl.
    + destruct (sa_connect env d) as [d1 [[]|e1]]; simpl;
        [discriminate|]. intros [= <-]. right. eauto.
    + intros [= <-]. left. eauto.
Qed.

End RunFacts.

(** ** The claims about the engine *)

Section Claims.

Variables Cell DState Cursor : Type.
Variable env : Env Cell DState Cursor.
Implicit Types (w : World DState) (t : list (Event Cell)).
Implicit Types (rs : list (Entry Cell)) (l : Locals Cell).

(** C1 (amended).  When a statement raises during its execute or fetch step
    and [rollback()] itself returns normally, [batch] returns to the caller
    without raising: the result holds the entries of the statements that
    succeeded before, followed by one entry with the failing statement and the
    message of its exception; [rollback()] was called, [commit()] was not,
    and no later statement was handed to the connection.  (The code calls
    [rollback()] before it appends the error entry; when [rollback()] raises,
    nothing is appended and the exception leaves
    [_execute_batch_statements].) *)
Theorem C1_failed_statement_ends_the_batch
  sql_query statements w t0 w1 k e :
  create_connection env w = (t0, w1, Return tt) ->
  parse_sql_statements env sql_query = Return statements ->
  first_failure env statements w1 = Some (k, e) ->
  is_Raise (snd (sa_rollback env (db (world_after env statements w1))))
  = false ->
  exists earlier s,
    outcome (batch env sql_query w)
    = Return (earlier ++ [error_entry env s (str e)]) /\
    nth_error statements k = Some s /\
    Forall2 (success_entry env) (firstn k statements) earlier /\
    appended (trace (batch env sql_query w))
    = earlier ++ [error_entry env s (str e)] /\
    rolled_back (trace (batch env sql_query w)) = true /\
    committed (trace (batch env sql_query w)) = false /\
    executed (trace (batch env sql_query w)) = firstn (S k) statements.
Proof.
  intros Hconn Hparse Hff Hrb.
  destruct (execute_batch_failure env sql_query w1 Hparse Hff)
    as (t & new & s & Hnth & Hex & Hap & Hsh & Hco & Hro & Hrun).
  cbv zeta in Hrun.
  destruct (snd (sa_rollback env (db (world_after env statements w1))))
    as [[]|e1]; [clear Hrb | discriminate Hrb].
  cbv zeta in Hrun.
  rewrite (batch_connected env sql_query w Hconn). cbv zeta.
  rewrite Hrun. unfold outcome, trace. cbn [fst snd].
  destruct (create_connection_quiet env w) as (Q1 & Q2 & Q3 & Q4).
  rewrite Hconn in Q1, Q2, Q3, Q4. unfold trace in Q1, Q2, Q3, Q4.
  cbn [fst] in Q1, Q2, Q3, Q4.
  exists new, s.
  rewrite !appended_app, !rolled_back_app, !committed_app, !executed_app.
  rewrite Q1, Q2, Q3, Q4, Hex, Hap, Hco, Hro. simpl.
  rewrite ?app_nil_r. repeat split; assumption.
Qed.





(** C3 (amended).  Once the text is split into [n] statements: when
    statement [k] (counted from 0) is the first to fail and [rollback()]
    returns normally, exactly [k + 1] entries are returned, at most [n] and
    equal to [n] when the failing statement is the last one; when no
    statement fails and [commit()] returns normally, exactly [n] entries are
    returned. *)
Theorem C3_result_count sql_query statements w :
  parse_sql_statements env sql_query = Return statements ->
  let run := _execute_batch_statements env sql_query w in
  let w1 := world_after env statements w in
  (forall k e,
      first_failure env statements w = Some (k, e) ->
      is_Raise (snd (sa_rollback env (db w1))) = false ->
      exists rs, outcome run = Return rs /\
                 List.length rs = S k /\
                 S k <= List.length statements) /\
  (first_failure env statements w = None ->
   is_Raise (snd (sa_commit env (db w1))) = false ->
   exists rs, outcome run = Return rs /\
              List.length rs = List.length statements).
Proof.
  intros Hparse run w1. split.
  - intros k e Hff Hrb.
    destruct (execute_batch_failure env sql_query w Hparse Hff)
      as (t & new & s & Hnth & Hex & Hap & Hsh & Hco & Hro & Hrun).
    cbv zeta in Hrun. fold run w1 in Hrun.
    destruct (snd (sa_rollback env (db w1))) as [[]|e1];
      [|discriminate Hrb].
    pose proof (first_failure_bound env statements w Hff) as Hk.
    eexists. split; [rewrite Hrun; reflexivity|].
    rewrite length_app, <- (Forall2_length_eq Hsh), length_firstn. simpl.
    lia.
  - intros Hff Hc.
    destruct (execute_batch_success env sql_query w Hparse Hff)
      as (t & new & Hex & Hap & Hsh & Hco & Hro & Hrun).
    cbv zeta in Hrun. fold run w1 in Hrun.
    destruct (snd (sa_commit env (db w1))) as [[]|e1];
      [|discriminate Hc].
    eexists. split; [rewrite Hrun; reflexivity|].
    symmetry. exact (Forall2_length_eq Hsh).
Qed.

(** C6 (amended).  When the connection is open and splitting the text
    raises [e], [batch] does not let [e] through: it returns the one-entry
    list that holds the whole text and the message of [e], unless [e] passes
    the connection test of the handler (its lower-cased message contains
    "connect" or "timeout"), in which case a [DatabaseConnectionError] is
    raised.  Nothing but the opening and the closing of the connection
    happens. *)
Theorem C6_parse_error_is_caught sql_query w t0 w1 e :
  create_connection env w = (t0, w1, Return tt) ->
  parse_sql_statements env sql_query = Raise e ->
  outcome (batch env sql_query w)
  = (if is_connection_error e
     then Raise (mkExn DatabaseConnectionError
                       ("Database connection failed: " ++ str e))
     else Return [error_entry env sql_query (str e)]) /\
  trace (batch env sql_query w) = t0 ++ [EvClose].
Proof.
  intros Hconn Hparse.
  rewrite (batch_connected env sql_query w Hconn). cbv zeta.
  unfold _execute_batch_statements, bind at 1 3, lift. rewrite Hparse.
  unfold outcome, trace. cbn [fst snd]. split; reflexivity.
Qed.

(** C10.  [SqlAlchemyConnection.close] and [UnifiedDatabaseEngine.close]
    always return normally, whatever the driver does; and leaving the
    connection scope hands on the outcome of its body unchanged. *)
Theorem C10_close_never_raises w :
  outcome (close env w) = Return tt /\
  outcome (UnifiedDatabaseEngine_close env w) = Return tt /\
  (forall (A : Type) (body : M Cell DState A),
      outcome (with_connection env body w) = outcome (body w)).
Proof.
  split; [|split].
  - rewrite close_run. reflexivity.
  - unfold UnifiedDatabaseEngine_close, bind, get_engine, try_except, call,
      set_engine, ret, outcome.
    destruct (has_engine w); [|reflexivity]. simpl.
    destruct (sa_dispose env (db w)) as [d [[]|e]]; reflexivity.
  - intros A body. rewrite with_connection_run. reflexivity.
Qed.

(** C8.  [SqlAlchemyConnection.execute] with a non-empty parameter
    dictionary: when the character [?] occurs anywhere in the SQL text, the
    underlying connection receives the list of the dictionary's values;
    otherwise it receives the dictionary itself. *)
Theorem C8_question_mark_selects_positional_binding
  sql (parameters : Parameters Cell) w :
  parameters <> [] ->
  let run := execute env sql (Some parameters) w in
  let sent (b : Bound Cell) :=
    trace run = [EvExecute sql b] /\
    world run = mkWorld (fst (sa_execute env sql b (db w))) (has_engine w) /\
    outcome run
    = wrapped "SQL execution failed: " (snd (sa_execute env sql b (db w))) in
  (In "?"%char (list_ascii_of_string sql) ->
   sent (Positional (map snd parameters))) /\
  (~ In "?"%char (list_ascii_of_string sql) ->
   sent (Named parameters)).
Proof.
  intros Hne run sent. subst run sent.
  destruct parameters as [|p ps]; [congruence|].
  unfold execute, try_except, call, raise, trace, world, outcome.
  cbv [truthy dict_of values andb].
  split; intros Hq.
  - apply contains_char in Hq. rewrite Hq.
    destruct (sa_execute env sql _ (db w)) as [d [c|e]]; simpl; auto.
  - destruct (PyStr.contains "?" sql) eqn:Hc.
    + apply contains_char in Hc. contradiction.
    + destruct (sa_execute env sql _ (db w)) as [d [c|e]]; simpl; auto.
Qed.








(** C5 (amended).  When [Engine.connect()] fails, [batch] raises a
    [DatabaseConnectionError].  [batch] never raises anything else; and for
    an exception [e] that leaves the connection scope, be it from
    [create_connection] or from [_execute_batch_statements], [batch] raises a
    [DatabaseConnectionError] when [e] passes the connection test of the
    handler and returns a one-entry error list otherwise. *)
Theorem C5_batch_raises_connection_errors_only sql_query w :
  (forall d e0,
      (has_engine w = true /\ d = db w) \/
      (has_engine w = false /\
       sa_create_engine env (db w) = (d, Return tt)) ->
      snd (sa_connect env d) = Raise e0 ->
      outcome (batch env sql_query w)
      = Raise (mkExn DatabaseConnectionError
                 ("Database connection failed: Failed to create connection: "
                  ++ str e0))) /\
  (forall e,
      outcome (batch env sql_query w) = Raise e ->
      exn_class e = DatabaseConnectionError) /\
  (forall e,
      escapes env sql_query w e ->
      outcome (batch env sql_query w)
      = if is_connection_error e
        then Raise (mkExn DatabaseConnectionError
                          ("Database connection failed: " ++ str e))
        else Return [error_entry env sql_query (str e)]).
Proof.
  assert (Hesc : forall e,
      escapes env sql_query w e ->
      outcome (batch env sql_query w)
      = if is_connection_error e
        then Raise (mkExn DatabaseConnectionError
                          ("Database connection failed: " ++ str e))
        else Return [error_entry env sql_query (str e)]).
  { intros e [Hc | (t0 & w1 & Hc & Hin)].
    - destruct (create_connection env w) as [[t0 w1] r] eqn:Hconn.
      unfold outcome in Hc. cbn [snd] in Hc. subst r.
      rewrite (batch_unconnected env sql_query w Hconn). reflexivity.
    - rewrite (batch_connected env sql_query w Hc). cbv zeta.
      unfold outcome at 1. cbn [snd]. rewrite Hin. reflexivity. }
  split; [|split]; [| |exact Hesc].
  - intros d e0 Hd Hconnect.
    rewrite (Hesc (mkExn DatabaseConnectionError
                         ("Failed to create connection: " ++ str e0))).
    + reflexivity.
    + left.
      unfold create_connection, _create_engine, bind, get_engine, set_engine,
        try_except, call, raise, ret, outcome.
      destruct Hd as [[He ->] | [He Hce]]; rewrite He; simpl.
      * destruct (sa_connect env (db w)) as [d1 r]. simpl in Hconnect.
        subst r. reflexivity.
      * rewrite Hce. simpl.
        destruct (sa_connect env d) as [d1 r]. simpl in Hconnect.
        subst r. reflexivity.
  - intros e.
    destruct (create_connection env w) as [[t0 w1] [[]|e1]] eqn:Hconn.
    + rewrite (batch_connected env sql_query w Hconn). cbv zeta.
      unfold outcome at 1. cbn [snd].
      destruct (outcome (_execute_batch_statements env sql_query w1))
        as [rs|e2]; [discriminate|].
      destruct (is_connection_error e2); [|discriminate].
      intros [= <-]. reflexivity.
    + rewrite (batch_unconnected env sql_query w Hconn).
      unfold outcome. cbn [snd].
      destruct (is_connection_error e1); [|discriminate].
      intros [= <-]. reflexivity.
Qed.

End Claims.

(** ** The batch against the driver *)

Section DriverFacts.

Variables Cell DState Cursor : Type.
Variable env : Env Cell DState Cursor.
Implicit Types (w : World DState) (t : list (Event Cell)).
Implicit Types (rs : list (Entry Cell)) (l : Locals Cell).

(** The loop body does to the driver what [driver_runs] says, and makes of
    the answer what [entry_of] and [statement_error] say. *)
Lemma loop_body_driver s w :
  exists t,
    statement_calls s t /\
    forall rs,
      loop_body env rs s w =
      match driver_runs env s (db w) with
      | (d1, Return answer) =>
          (t ++ [EvAppend (entry_of env (s, Return answer))],
           mkWorld d1 (has_engine w),
           Return (rs ++ [entry_of env (s, Return answer)]))
      | (d1, Raise e) =>
          (t, mkWorld d1 (has_engine w), Raise (statement_error env s e))
      end.
Proof.
  unfold loop_body, driver_runs, statement_error, entry_of, statement_calls.
  destruct (String.eqb (detect_statement_type env s) (FETCH_STATEMENT env)).
  - unfold fetch_all, try_except, bind, call, raise, append, tell, ret.
    cbv [or_empty truthy dict_of].
    destruct (sa_execute env s (Named []) (db w)) as [d1 [c|e]];
      cbn [fst snd db has_engine app].
    + destruct (sa_fetchall env c d1) as [d2 [rows|e]];
        cbn [fst snd db has_engine app].
      * exists [EvExecute s (Named []); EvFetchall].
        split; [eauto | intros rs; reflexivity].
      * exists [EvExecute s (Named []); EvFetchall].
        split; [eauto | intros rs; reflexivity].
    + exists [EvExecute s (Named [])].
      split; [eauto | intros rs; reflexivity].
  - unfold execute, try_except, bind, call, raise, append, tell, ret.
    cbv [truthy andb].
    destruct (sa_execute env s NoParameters (db w)) as [d1 [c|e]];
      cbn [fst snd db has_engine app];
      exists [EvExecute s NoParameters];
      (split; [eauto | intros rs; reflexivity]).
Qed.

(** How the attempted statements look: all of them accepted, or the
    accepted ones followed by the refused one. *)
Lemma attempted_shape statements : forall d,
  let att := attempted env statements d in
  (refusal env statements d = None /\
   accepted att = att /\ map fst att = statements /\
   refused env att = None)
  \/
  (exists k s e,
      refusal env statements d = Some (k, e) /\
      nth_error statements k = Some s /\
      att = accepted att ++ [(s, Raise e)] /\
      List.length (accepted att) = k /\
      map fst att = firstn (S k) statements /\
      refused env att = Some (statement_error env s e)).
Proof.
  induction statements as [|s rest IH]; intros d; cbv zeta.
  - left. repeat split.
  - cbn [attempted refusal].
    destruct (driver_runs env s d) as [d1 [answer|e]].
    + specialize (IH d1). cbv zeta in IH.
      destruct IH as [(H1 & H2 & H3 & H4) | (k & sk & e & H1 & H2 & H3 & H4 & H5 & H6)].
      * left. rewrite H1. unfold accepted in *. cbn [filter snd is_Raise negb map fst refused].
        rewrite H2, H3. repeat split. exact H4.
      * right. exists (S k), sk, e. rewrite H1.
        unfold accepted in *.
        cbn [filter snd is_Raise negb map fst refused nth_error firstn List.length app].
        rewrite H4, H5. repeat split; try assumption.
        rewrite <- H3. reflexivity.
    + right. exists 0, s, e. unfold accepted.
      cbn [filter snd is_Raise negb map fst refused nth_error firstn List.length app].
      repeat split.
Qed.

(** The loop, in terms of what the driver answers. *)
Lemma for_statements_driver statements : forall l w,
  let att := attempted env statements (db w) in
  exists t,
    for_statements env statements l w
    = (t,
       mkWorld (driver_state_after env statements (db w)) (has_engine w),
       Return (mkLocals (results l ++ map (entry_of env) (accepted att))
                        (last (map (fun a => Some (fst a)) att) (stmt l)),
               refused env att)) /\
    executed t = map fst att /\
    appended t = map (entry_of env) (accepted att) /\
    committed t = false /\ rolled_back t = false.
Proof.
  induction statements as [|s rest IH]; intros l w; cbv zeta.
  - exists []. cbn. unfold ret. rewrite app_nil_r.
    destruct l, w; repeat split.
  - cbn [for_statements attempted driver_state_after].
    unfold bind at 1, attempt.
    destruct (loop_body_driver s w) as (t1 & Hc & Hrun).
    rewrite (Hrun (results l)).
    destruct (driver_runs env s (db w)) as [d1 [answer|e]].
    + destruct (IH (mkLocals (results l ++ [entry_of env (s, Return answer)])
                             (Some s))
                   (mkWorld d1 (has_engine w)))
        as (t2 & Hloop & Hex & Hap & Hco & Hrb).
      cbv zeta in Hloop. cbn [db has_engine results stmt] in Hloop, Hex, Hap.
      rewrite Hloop.
      exists ((t1 ++ [EvAppend (entry_of env (s, Return answer))]) ++ t2).
      unfold accepted in *.
      cbn [filter snd is_Raise negb map fst refused].
      rewrite last_cons, <- !app_assoc. cbn [app].
      split; [reflexivity|].
      rewrite !executed_app, !appended_app, !committed_app, !rolled_back_app.
      rewrite (statement_calls_executed Hc), (statement_calls_appended Hc),
        (statement_calls_committed Hc), (statement_calls_rolled_back Hc).
      simpl. fold (committed t2) (rolled_back t2).
      rewrite Hex, Hap, Hco, Hrb. repeat split.
    + exists t1. unfold ret, accepted.
      cbn [filter snd is_Raise negb map fst refused last].
      rewrite !app_nil_r.
      rewrite (statement_calls_executed Hc), (statement_calls_appended Hc),
        (statement_calls_committed Hc), (statement_calls_rolled_back Hc).
      repeat split.
Qed.

(** [_execute_batch_statements] in terms of what the driver answers. *)
Lemma execute_batch_driver sql_query statements w :
  parse_sql_statements env sql_query = Return statements ->
  let att := attempted env statements (db w) in
  let d := driver_state_after env statements (db w) in
  let after_rollback d0 := mkWorld (fst (sa_rollback env d0)) (has_engine w) in
  let handled (e : Exn) d0 (t : list (Event Cell)) :=
    match snd (sa_rollback env d0) with
    | Raise e1 =>
        (t ++ [EvRollback], after_rollback d0,
         Raise (mkExn DatabaseOperationError
                      ("Rollback failed: " ++ str e1)))
    | Return _ =>
        match last (map (fun a => Some (fst a)) att) None with
        | None =>
            (t ++ [EvRollback], after_rollback d0,
             Raise (mkExn UnboundLocalError
                "cannot access local variable 'stmt' where it is not associated with a value"))
        | Some s =>
            (t ++ [EvRollback; EvAppend (error_entry env s (str e))],
             after_rollback d0,
             Return (map (entry_of env) (accepted att)
                     ++ [error_entry env s (str e)]))
        end
    end in
  exists t,
    executed t = map fst att /\
    appended t = map (entry_of env) (accepted att) /\
    committed t = false /\ rolled_back t = false /\
    _execute_batch_statements env sql_query w =
    match refused env att with
    | Some e => handled e d t
    | None =>
        match snd (sa_commit env d) with
        | Return _ =>
            (t ++ [EvCommit],
             mkWorld (fst (sa_commit env d)) (has_engine w),
             Return (map (entry_of env) (accepted att)))
        | Raise e0 =>
            handled (mkExn DatabaseOperationError
                           ("Commit failed: " ++ str e0))
                    (fst (sa_commit env d)) (t ++ [EvCommit])
        end
    end.
Proof.
  intros Hparse. cbv zeta.
  destruct (for_statements_driver statements (mkLocals [] None) w)
    as (t & Hloop & Hex & Hap & Hco & Hrb).
  cbv zeta in Hloop. cbn [results stmt app] in Hloop.
  exists t. repeat (split; [assumption|]).
  rewrite (execute_batch_run env sql_query w Hparse), Hloop.
  destruct (refused env (attempted env statements (db w))) as [e|].
  - rewrite except_block_run. cbn [stmt results db has_engine]. cbv zeta.
    destruct (snd (sa_rollback env _)); [|reflexivity].
    destruct (last _ None); reflexivity.
  - cbn [stmt results db has_engine]. cbv zeta.
    destruct (snd (sa_commit env _)) as [[]|e0]; [reflexivity|].
    rewrite except_block_run. cbn [stmt results db has_engine str exn_msg].
    cbv zeta.
    destruct (snd (sa_rollback env _)); [|rewrite <- app_assoc; reflexivity].
    destruct (last _ None); rewrite <- app_assoc; reflexivity.
Qed.

End DriverFacts.

Section DriverClaims.

Variables Cell DState Cursor : Type.
Variable env : Env Cell DState Cursor.
Implicit Types (w : World DState) (t : list (Event Cell)).
Implicit Types (rs : list (Entry Cell)) (l : Locals Cell).


(** The run when the driver accepts every statement. *)
Lemma execute_batch_accepted sql_query statements w :
  parse_sql_statements env sql_query = Return statements ->
  refusal env statements (db w) = None ->
  let att := attempted env statements (db w) in
  let d := driver_state_after env statements (db w) in
  map fst att = statements /\
  exists t,
    executed t = statements /\
    appended t = map (entry_of env) att /\
    committed t = false /\ rolled_back t = false /\
    ((snd (sa_commit env d) = Return tt /\
      _execute_batch_statements env sql_query w
      = (t ++ [EvCommit], mkWorld (fst (sa_commit env d)) (has_engine w),
         Return (map (entry_of env) att)))
     \/
     (exists e0 tail r,
         snd (sa_commit env d) = Raise e0 /\
         _execute_batch_statements env sql_query w
         = (t ++ EvCommit :: EvRollback :: tail,
            mkWorld (fst (sa_rollback env (fst (sa_commit env d))))
                    (has_engine w), r) /\
         executed tail = [] /\
         (forall rs, r = Return rs ->
                     exists extra,
                       tail = [EvAppend extra] /\
                       rs = map (entry_of env) att ++ [extra]) /\
         (is_Raise r = true -> tail = []))).
Proof.
  intros Hparse Href. cbv zeta.
  destruct (attempted_shape env statements (db w))
    as [(_ & Hacc & Hfst & Hnone) | (k & s & e & H & _)];
    [|rewrite H in Href; discriminate].
  split; [exact Hfst|].
  destruct (execute_batch_driver env sql_query w Hparse)
    as (t & Hex & Hap & Hco & Hrb & Hrun).
  cbv zeta in Hrun. rewrite Hnone, Hacc in Hrun. rewrite Hacc in Hap.
  rewrite Hfst in Hex.
  exists t. repeat (split; [assumption|]).
  destruct (snd (sa_commit env _)) as [[]|e0].
  - left. split; [reflexivity | exact Hrun].
  - right. exists e0.
    destruct (snd (sa_rollback env _)) as [[]|e1].
    + destruct (last _ None) as [sl|].
      * eexists [EvAppend _], _. split; [reflexivity|].
        split; [rewrite Hrun, <- app_assoc; reflexivity|].
        split; [reflexivity|]. split; [|discriminate].
        intros rs [= <-]. eauto.
      * exists [], (Raise (mkExn UnboundLocalError
          "cannot access local variable 'stmt' where it is not associated with a value")).
        split; [reflexivity|].
        split; [rewrite Hrun, <- app_assoc; reflexivity|].
        split; [reflexivity|]. split; [discriminate | reflexivity].
    + exists [], (Raise (mkExn DatabaseOperationError
                                ("Rollback failed: " ++ str e1))).
      split; [reflexivity|].
      split; [rewrite Hrun, <- app_assoc; reflexivity|].
      split; [reflexivity|]. split; [discriminate | reflexivity].
Qed.

(** The run when the driver refuses statement [k]. *)
Lemma execute_batch_refused sql_query statements w k e :
  parse_sql_statements env sql_query = Return statements ->
  refusal env statements (db w) = Some (k, e) ->
  let att := attempted env statements (db w) in
  let d := driver_state_after env statements (db w) in
  exists s t,
    nth_error statements k = Some s /\
    map fst att = firstn (S k) statements /\
    List.length att = S k /\
    List.length (accepted att) = k /\
    map (entry_of env) att
    = map (entry_of env) (accepted att) ++ [entry_of env (s, Raise e)] /\
    executed t = map fst att /\
    appended t = map (entry_of env) (accepted att) /\
    committed t = false /\ rolled_back t = false /\
    _execute_batch_statements env sql_query w =
    match snd (sa_rollback env d) with
    | Raise e1 =>
        (t ++ [EvRollback],
         mkWorld (fst (sa_rollback env d)) (has_engine w),
         Raise (mkExn DatabaseOperationError
                      ("Rollback failed: " ++ str e1)))
    | Return _ =>
        (t ++ [EvRollback; EvAppend (entry_of env (s, Raise e))],
         mkWorld (fst (sa_rollback env d)) (has_engine w),
         Return (map (entry_of env) att))
    end.
Proof.
  intros Hparse Href. cbv zeta.
  destruct (attempted_shape env statements (db w))
    as [(H & _) | (k' & s & e' & H & Hnth & Hatt & Hlen & Hfst & Hsome)];
    rewrite H in Href; [discriminate|]. injection Href as -> ->.
  destruct (execute_batch_driver env sql_query w Hparse)
    as (t & Hex & Hap & Hco & Hrb & Hrun).
  cbv zeta in Hrun. rewrite Hsome in Hrun.
  assert (Hmap : map (entry_of env) (attempted env statements (db w))
                 = map (entry_of env)
                       (accepted (attempted env statements (db w)))
                   ++ [entry_of env (s, Raise e)]).
  { rewrite Hatt at 1. rewrite map_app. reflexivity. }
  assert (Hlast : last (map (fun a => Some (fst a))
                            (attempted env statements (db w))) None
                  = Some s).
  { rewrite Hatt, map_app. cbn [map fst]. apply last_last. }
  rewrite Hlast in Hrun.
  exists s, t. repeat (split; [assumption|]).
  split.
  { rewrite Hatt, length_app, Hlen. simpl. lia. }
  repeat (split; [assumption|]).
  rewrite Hrun.
  destruct (snd (sa_rollback env _)); [|reflexivity].
  rewrite Hmap. reflexivity.
Qed.

End DriverClaims.

Section BatchClaims.

Variables Cell DState Cursor : Type.
Variable env : Env Cell DState Cursor.
Implicit Types (w : World DState) (t : list (Event Cell)).
Implicit Types (rs : list (Entry Cell)) (l : Locals Cell).

(** What [batch] adds around [_execute_batch_statements] once the
    connection is there. *)
Lemma batch_around sql_query w t0 w1 :
  create_connection env w = (t0, w1, Return tt) ->
  let run := _execute_batch_statements env sql_query w1 in
  trace (batch env sql_query w) = t0 ++ trace run ++ [EvClose] /\
  executed (trace (batch env sql_query w)) = executed (trace run) /\
  committed (trace (batch env sql_query w)) = committed (trace run) /\
  rolled_back (trace (batch env sql_query w)) = rolled_back (trace run) /\
  executed t0 = [] /\ committed t0 = false /\
  (forall rs, outcome run = Return rs ->
              outcome (batch env sql_query w) = Return rs).
Proof.
  intros Hconn run.
  destruct (create_connection_quiet env w) as (Q1 & Q2 & Q3 & Q4).
  rewrite Hconn in Q1, Q2, Q3, Q4. unfold trace in Q1, Q2, Q3, Q4.
  cbn [fst] in Q1, Q2, Q3, Q4.
  rewrite (batch_connected env sql_query w Hconn). cbv zeta. fold run.
  destruct run as [[ti wi] ri]. unfold trace, outcome, world. cbn [fst snd].
  rewrite !executed_app, !committed_app, !rolled_back_app, Q1, Q3, Q4.
  simpl. rewrite app_nil_r, !orb_false_r.
  repeat split; try assumption.
  intros rs ->. reflexivity.
Qed.


(** C4.  Once the connection is open and the text is split, [commit()] is
    called if and only if the driver accepted every statement; it is then
    called after all of them have reached the driver.  When the driver
    refuses statement [k], the statements up to [k] have reached it,
    [rollback()] is called and [commit()] is not. *)
Theorem C4_commit_iff_every_statement_succeeds
  sql_query statements w t0 w1 :
  create_connection env w = (t0, w1, Return tt) ->
  parse_sql_statements env sql_query = Return statements ->
  let t := trace (batch env sql_query w) in
  (committed t = true <-> refusal env statements (db w1) = None) /\
  (forall k e,
      refusal env statements (db w1) = Some (k, e) ->
      rolled_back t = true /\ committed t = false /\
      executed t = firstn (S k) statements) /\
  (refusal env statements (db w1) = None ->
   exists before after,
     t = before ++ EvCommit :: after /\
     executed before = statements /\ committed before = false /\
     executed after = []).
Proof.
  intros Hconn Hparse t.
  destruct (batch_around sql_query w Hconn)
    as (Bt & Bex & Bco & Brb & Q1 & Q3 & _).
  fold t in Bt, Bex, Bco, Brb.
  destruct (refusal env statements (db w1)) as [[k e]|] eqn:Href.
  - destruct (execute_batch_refused env sql_query w1 Hparse Href)
      as (s & t1 & Hnth & Hfst & Hlen & Hacc & Hmap & Hex & Hap & Hco & Hrb
          & Hrun).
    assert (H : rolled_back t = true /\ committed t = false /\
                executed t = firstn (S k) statements).
    { rewrite Brb, Bco, Bex, Hrun.
      destruct (snd (sa_rollback env _)); unfold trace; cbn [fst];
        rewrite rolled_back_app, committed_app, executed_app, Hco, Hrb, Hex,
          Hfst; simpl; rewrite app_nil_r; repeat split. }
    split; [|split; [intros k' e' [= <- <-]; exact H | discriminate]].
    destruct H as (_ & H & _). rewrite H. split; discriminate.
  - destruct (execute_batch_accepted env sql_query w1 Hparse Href)
      as (Hfst & t1 & Hex & Hap & Hco & Hrb & Hcases).
    assert (Hsplit : exists before after,
               t = before ++ EvCommit :: after /\
               executed before = statements /\ committed before = false /\
               executed after = []).
    { rewrite Bt.
      destruct Hcases as [(_ & Hrun) | (e0 & tail & r & _ & Hrun & Ht & _)];
        rewrite Hrun; unfold trace; cbn [fst].
      - exists (t0 ++ t1), [EvClose].
        rewrite executed_app, committed_app, Q1, Q3, Hex, Hco.
        rewrite <- !app_assoc. repeat split.
      - exists (t0 ++ t1), (EvRollback :: tail ++ [EvClose]).
        rewrite executed_app, committed_app, Q1, Q3, Hex, Hco.
        rewrite <- !app_assoc. repeat split.
        simpl. rewrite executed_app, Ht. reflexivity. }
    split; [|split; [discriminate | intros _; exact Hsplit]].
    split; [reflexivity|]. intros _.
    destruct Hsplit as (before & after & -> & _).
    rewrite committed_app. simpl. apply orb_true_r.
Qed.

End BatchClaims.

(** ** The circuit breaker *)

Import CircuitBreaker.

Section Breaker.

Variables St A : Type.
Variable cfg : CircuitBreakerConfig.
Implicit Types (x : Sys St) (op : St -> St * Result A).
Implicit Types calls : list (Z * (St -> St * Result A)).



End Breaker.

(** ** The breaker through a whole scenario *)

Section BreakerScenario.

Variables St A : Type.
Variable cfg : CircuitBreakerConfig.
Implicit Types (x y : Sys St) (op : St -> St * Result A).
Implicit Types calls early : list (Z * (St -> St * Result A)).




End BreakerScenario.

(* ================================================================== *)
(** * Concrete runs *)

(** C1 on the three statements, with a connection whose rollback works. *)
Lemma C1_witness :
  let env := Mock.env Mock.quiet in
  let run := batch env Mock.three Mock.start in
  exists earlier s,
    outcome run = Return (earlier ++ [error_entry env s (str Mock.refused)]) /\
    nth_error Mock.three_statements 1 = Some s /\
    Forall2 (success_entry env) (firstn 1 Mock.three_statements) earlier /\
    appended (trace run) = earlier ++ [error_entry env s (str Mock.refused)] /\
    rolled_back (trace run) = true /\
    committed (trace run) = false /\
    executed (trace run) = firstn 2 Mock.three_statements.
Proof.
  apply (@C1_failed_statement_ends_the_batch _ _ _ (Mock.env Mock.quiet)
           Mock.three Mock.three_statements Mock.start
           Mock.connecting Mock.connected 1 Mock.refused);
    reflexivity.
Defined.


(** C1 as first stated fails when [rollback()] raises: the second statement
    is refused, the rollback fails, and [batch] raises instead of returning
    the entries. *)
Lemma C1_counterexample :
  let env :=
    Mock.env (Mock.rollback_fails "server closed the connection unexpectedly")
  in
  create_connection env Mock.start
  = (Mock.connecting, Mock.connected, Return tt) /\
  parse_sql_statements env Mock.three = Return Mock.three_statements /\
  first_failure env Mock.three_statements Mock.connected
  = Some (1, Mock.refused) /\
  outcome (batch env Mock.three Mock.start)
  = Raise (mkExn DatabaseConnectionError
             "Database connection failed: Rollback failed: server closed the connection unexpectedly") /\
  ~ (exists rs, outcome (batch env Mock.three Mock.start) = Return rs).
Proof.
  cbv zeta. repeat split; try reflexivity.
  intros [rs H]. vm_compute in H. discriminate H.
Qed.

(** C3 on the three statements: the second one fails, two entries come
    back. *)
Lemma C3_witness :
  let env := Mock.env Mock.quiet in
  exists rs,
    outcome (_execute_batch_statements env Mock.three Mock.connected)
    = Return rs /\
    List.length rs = 2 /\ 2 <= List.length Mock.three_statements.
Proof.
  apply (proj1 (@C3_result_count _ _ _ (Mock.env Mock.quiet)
                  Mock.three Mock.three_statements Mock.connected eq_refl)
               1 Mock.refused);
    reflexivity.
Defined.

(** C3 as first stated fails on a single refused statement: one entry for
    one statement, although the statement failed. *)
Lemma C3_counterexample :
  let env := Mock.env Mock.quiet in
  let run := _execute_batch_statements env "BAD SQL HERE" Mock.connected in
  ~ (forall statements rs,
        parse_sql_statements env "BAD SQL HERE" = Return statements ->
        outcome run = Return rs ->
        List.length rs <= List.length statements /\
        (List.length rs = List.length statements <->
         first_failure env statements Mock.connected = None)).
Proof.
  cbv zeta. intros H.
  destruct (H ["BAD SQL HERE"]
              [error_entry (Mock.env Mock.quiet) "BAD SQL HERE"
                           (str Mock.refused)]
              eq_refl eq_refl) as [_ [Heq _]].
  specialize (Heq eq_refl). vm_compute in Heq. discriminate Heq.
Qed.

(** C4 both ways: on the three statements the second is refused, so the
    batch rolls back and does not commit; on two queries that the driver
    accepts, the batch commits. *)
Lemma C4_witness :
  let env := Mock.env Mock.quiet in
  (rolled_back (trace (batch env Mock.three Mock.start)) = true /\
   committed (trace (batch env Mock.three Mock.start)) = false /\
   executed (trace (batch env Mock.three Mock.start))
   = firstn 2 Mock.three_statements) /\
  committed (trace (batch env "SELECT 1; SELECT 2" Mock.start)) = true.
Proof.
  cbv zeta. split.
  - exact (proj1 (proj2
             (@C4_commit_iff_every_statement_succeeds _ _ _
                (Mock.env Mock.quiet) Mock.three Mock.three_statements
                Mock.start Mock.connecting Mock.connected eq_refl eq_refl))
             1 (mkExn (OtherException "ProgrammingError")
                      "syntax error near BAD") eq_refl).
  - exact (proj2 (proj1
             (@C4_commit_iff_every_statement_succeeds _ _ _
                (Mock.env Mock.quiet) "SELECT 1; SELECT 2"
                ["SELECT 1"; "SELECT 2"]
                Mock.start Mock.connecting Mock.connected eq_refl eq_refl))
             eq_refl).
Defined.

(** C5 as first stated fails both ways: no engine can be created and
    [batch] returns an entry; the connection is open and [batch] raises
    because the rollback failed. *)
Lemma C5_counterexample :
  (let env := Mock.env (Mock.no_engine "Could not parse SQLAlchemy URL") in
   is_Raise (outcome (create_connection env Mock.start)) = true /\
   outcome (batch env "SELECT 1" Mock.start)
   = Return [error_entry env "SELECT 1"
               "Failed to create database engine: Could not parse SQLAlchemy URL"])
  /\
  (let env :=
     Mock.env (Mock.rollback_fails "server closed the connection unexpectedly")
   in
   outcome (create_connection env Mock.start) = Return tt /\
   outcome (batch env Mock.three Mock.start)
   = Raise (mkExn DatabaseConnectionError
              "Database connection failed: Rollback failed: server closed the connection unexpectedly")).
Proof. cbv zeta. repeat split; reflexivity. Qed.

(** C6 on a text with an open quote. *)
Lemma C6_witness :
  let env := Mock.env Mock.quiet in
  let e := mkExn SqlParseError "unterminated quoted string" in
  outcome (batch env "SELECT 'abc" Mock.start)
  = (if is_connection_error e
     then Raise (mkExn DatabaseConnectionError
                       ("Database connection failed: " ++ str e))
     else Return [error_entry env "SELECT 'abc" (str e)]) /\
  trace (batch env "SELECT 'abc" Mock.start) = Mock.connecting ++ [EvClose].
Proof.
  apply (@C6_parse_error_is_caught _ _ _ (Mock.env Mock.quiet)
           "SELECT 'abc" Mock.start Mock.connecting Mock.connected);
    reflexivity.
Defined.

(** C6 as first stated fails: the splitter raises and [batch] returns an
    entry. *)
Lemma C6_counterexample :
  let env := Mock.env Mock.quiet in
  parse_sql_statements env "SELECT 'abc"
  = Raise (mkExn SqlParseError "unterminated quoted string") /\
  outcome (batch env "SELECT 'abc" Mock.start)
  = Return [error_entry env "SELECT 'abc" "unterminated quoted string"] /\
  is_Raise (outcome (batch env "SELECT 'abc" Mock.start)) = false.
Proof. cbv zeta. repeat split; reflexivity. Qed.

(** C8 on a query with one [?] and one parameter. *)
Lemma C8_witness :
  let env := Mock.env Mock.quiet in
  let sql := "SELECT * FROM t WHERE id = ?" in
  let run := execute env sql (Some [("id", 7%Z)]) Mock.connected in
  trace run = [EvExecute sql (Positional [7%Z])] /\
  world run
  = mkWorld (fst (sa_execute env sql (Positional [7%Z]) (db Mock.connected)))
            (has_engine Mock.connected) /\
  outcome run
  = wrapped "SQL execution failed: "
      (snd (sa_execute env sql (Positional [7%Z]) (db Mock.connected))).
Proof.
  apply (proj1 (@C8_question_mark_selects_positional_binding _ _ _
                  (Mock.env Mock.quiet) "SELECT * FROM t WHERE id = ?"
                  [("id", 7%Z)] Mock.connected
                  ltac:(discriminate))).
  apply contains_char. reflexivity.
Defined.


(** The same breaker, run: two failures at times 10 and 11 open it,
    a call at time 20 is turned away, a call at time 41 is the trial. *)
Example breaker_run :
  let cfg := mkConfig 2 30 in
  let opened := series cfg [(10%Z, Mock.down); (11%Z, Mock.down)]
                       (mkSys fresh 0 0) in
  opened = mkSys (mkBreaker Open 2 11) 2 2 /\
  guarded cfg 20 Mock.up opened = (opened, BreakerOpenError) /\
  guarded cfg 41 Mock.up opened
  = (mkSys (mkBreaker Closed 0 11) 3 3, Ran (Return tt)).
Proof. cbv zeta. repeat split; reflexivity. Qed.

(** C5 when [Engine.connect()] fails. *)
Lemma C5_witness :
  let env := Mock.env (Mock.no_connection "unable to open database file") in
  outcome (batch env "SELECT 1" Mock.start)
  = Raise (mkExn DatabaseConnectionError
             ("Database connection failed: Failed to create connection: "
              ++ "unable to open database file")).
Proof.
  apply (proj1 (@C5_batch_raises_connection_errors_only _ _ _
                  (Mock.env (Mock.no_connection "unable to open database file"))
                  "SELECT 1" Mock.start)
               []
               (mkExn (OtherException "OperationalError")
                      "unable to open database file")).
  - right. split; reflexivity.
  - reflexivity.
Defined.


(** A failing [commit()] after the statements have succeeded: the [except]
    clause appends an entry for the last statement. *)
Example failing_commit_run :
  let env := Mock.env (Mock.mkScript None None (Some "disk full")
                                     None None None) in
  _execute_batch_statements env "INSERT INTO t VALUES (1)" Mock.connected
  = ([EvExecute "INSERT INTO t VALUES (1)" NoParameters;
      EvAppend (execute_entry env "INSERT INTO t VALUES (1)");
      EvCommit; EvRollback;
      EvAppend (error_entry env "INSERT INTO t VALUES (1)"
                            "Commit failed: disk full")],
     mkWorld ["INSERT INTO t VALUES (1)"] true,
     Return [execute_entry env "INSERT INTO t VALUES (1)";
             error_entry env "INSERT INTO t VALUES (1)"
                         "Commit failed: disk full"]).
Proof. reflexivity. Qed.

(** A failing [commit()] when the text holds no statement: [stmt] was never
    bound. *)
Example failing_commit_without_statement :
  let env := Mock.env (Mock.mkScript None None (Some "disk full")
                                     None None None) in
  outcome (_execute_batch_statements env EmptyString Mock.connected)
  = Raise (mkExn UnboundLocalError
      "cannot access local variable 'stmt' where it is not associated with a value").
Proof. reflexivity. Qed.

(** A [rollback()] that fails without any word of connection: [batch] gives
    back one entry for the whole text, and the entries of the statements are
    lost. *)
Example failing_rollback_run :
  let env := Mock.env (Mock.rollback_fails "disk I/O error") in
  outcome (batch env Mock.three Mock.start)
  = Return [error_entry env Mock.three "Rollback failed: disk I/O error"].
Proof. reflexivity. Qed.

(** Two queries: two fetch entries with one row each, and a commit. *)
Example two_queries_run :
  let env := Mock.env Mock.quiet in
  let run := batch env "SELECT 1; SELECT 2" Mock.start in
  outcome run
  = Return [fetch_entry env "SELECT 1" [[("value", 1%Z)]];
            fetch_entry env "SELECT 2" [[("value", 1%Z)]]] /\
  committed (trace run) = true /\ rolled_back (trace run) = false.
Proof. cbv zeta. repeat split; reflexivity. Qed.

(* ================================================================== *)
(** * Further properties of the engine *)

Section ConnectionExtras.

Variables Cell DState Cursor : Type.
Variable env : Env Cell DState Cursor.
Variable sa_fetchone : Cursor -> DState -> DState * Result (option (Row Cell)).
Implicit Types (w : World DState) (t : list (Event Cell)).
Implicit Types parameters : option (Parameters Cell).

(** X1.  [execute] with no parameters, be it [None] or an empty dictionary,
    hands the bare statement to the connection, also when the text holds a
    [?]. *)
Theorem execute_without_parameters sql parameters w :
  parameters = None \/ parameters = Some [] ->
  trace (execute env sql parameters w) = [EvExecute sql NoParameters] /\
  world (execute env sql parameters w)
  = mkWorld (fst (sa_execute env sql NoParameters (db w))) (has_engine w) /\
  outcome (execute env sql parameters w)
  = wrapped "SQL execution failed: "
            (snd (sa_execute env sql NoParameters (db w))).
Proof.
  intros [-> | ->];
    unfold execute, try_except, call, raise, trace, world, outcome;
    cbv [truthy andb];
    destruct (sa_execute env sql NoParameters (db w)) as [d [c|e]];
    simpl; auto.
Qed.

(** X2.  [execute], [fetch_all], [fetch_one], [commit] and [rollback]
    return what the driver returns and raise exactly when the driver raises:
    the exception is then a [DatabaseOperationError] whose message is the
    prefix of the method followed by the message of the driver's exception.
    In [fetch_all] and [fetch_one] that holds for the execution of the query
    and for the fetch that follows it. *)
Theorem connection_raises_operation_errors sql parameters w :
  let sent :=
    if truthy parameters && PyStr.contains "?" sql
    then Positional (values (dict_of parameters))
    else if truthy parameters then Named (dict_of parameters)
         else NoParameters in
  let first := sa_execute env sql (Named (or_empty parameters)) (db w) in
  outcome (execute env sql parameters w)
  = wrapped "SQL execution failed: " (snd (sa_execute env sql sent (db w))) /\
  outcome (fetch_all env sql parameters w)
  = wrapped "Data fetch failed: "
      (match snd first with
       | Return cursor => snd (sa_fetchall env cursor (fst first))
       | Raise e => Raise e
       end) /\
  outcome (fetch_one env sa_fetchone sql parameters w)
  = wrapped "Single row fetch failed: "
      (match snd first with
       | Return cursor => snd (sa_fetchone cursor (fst first))
       | Raise e => Raise e
       end) /\
  outcome (commit env w)
  = wrapped "Commit failed: " (snd (sa_commit env (db w))) /\
  outcome (rollback env w)
  = wrapped "Rollback failed: " (snd (sa_rollback env (db w))).
Proof.
  cbv zeta. split; [|split; [|split; [|split]]].
  - unfold execute, try_except, call, raise, outcome.
    destruct (truthy parameters && PyStr.contains "?" sql);
      [|destruct (truthy parameters)];
      match goal with
      | |- context [sa_execute env sql ?b (db w)] =>
          destruct (sa_execute env sql b (db w)) as [d [c|e]]
      end; reflexivity.
  - unfold fetch_all, try_except, bind, call, raise, outcome.
    destruct (sa_execute env sql _ (db w)) as [d [c|e]]; cbn [fst snd db].
    + destruct (sa_fetchall env c d) as [d1 [rows|e]]; reflexivity.
    + reflexivity.
  - unfold fetch_one, try_except, bind, call, unrecorded, raise, outcome.
    destruct (sa_execute env sql _ (db w)) as [d [c|e]]; cbn [fst snd db].
    + destruct (sa_fetchone c d) as [d1 [row|e]]; reflexivity.
    + reflexivity.
  - rewrite commit_run. reflexivity.
  - rewrite rollback_run. reflexivity.
Qed.

(** X3.  [fetch_all] always binds by name: the connection receives the
    dictionary, or an empty one, whatever the text holds; and when that call
    raises, the rows are not fetched. *)
Theorem fetch_all_binds_by_name sql parameters w :
  let run := fetch_all env sql parameters w in
  let first := EvExecute sql (Named (or_empty parameters)) in
  (trace run = [first] \/ trace run = [first; EvFetchall]) /\
  (forall e0,
      snd (sa_execute env sql (Named (or_empty parameters)) (db w))
      = Raise e0 ->
      trace run = [first] /\
      outcome run
      = Raise (mkExn DatabaseOperationError
                     ("Data fetch failed: " ++ str e0))) /\
  (forall rows, outcome run = Return rows -> trace run = [first; EvFetchall]).
Proof.
  cbv zeta. unfold fetch_all, try_except, bind, call, raise, trace, outcome.
  destruct (sa_execute env sql _ (db w)) as [d [c|e1]]; cbn [fst snd db app].
  - destruct (sa_fetchall env c d) as [d1 [rows|e1]]; cbn [fst snd app];
      (split; [auto | split; [discriminate | ]]).
    + reflexivity.
    + discriminate.
  - split; [auto | split].
    + intros e0 [= <-]. split; reflexivity.
    + discriminate.
Qed.

End ConnectionExtras.

Section EngineExtras.

Variables Cell DState Cursor : Type.
Variable env : Env Cell DState Cursor.
Implicit Types (w : World DState) (t : list (Event Cell)).

(** X4.  [create_connection] builds the engine only when none is stored:
    with an engine it goes straight to [connect()]; without one it creates
    it first and keeps it, also when [connect()] then fails; and when the
    creation fails it raises a [DatabaseOperationError], stores nothing and
    does not try to connect. *)
Theorem create_connection_builds_the_engine_once w :
  (has_engine w = true ->
   trace (create_connection env w) = [EvConnect] /\
   has_engine (world (create_connection env w)) = true) /\
  (forall d,
      has_engine w = false ->
      sa_create_engine env (db w) = (d, Return tt) ->
      trace (create_connection env w) = [EvCreateEngine; EvConnect] /\
      has_engine (world (create_connection env w)) = true) /\
  (forall d e0,
      has_engine w = false ->
      sa_create_engine env (db w) = (d, Raise e0) ->
      create_connection env w
      = ([EvCreateEngine], mkWorld d false,
         Raise (mkExn DatabaseOperationError
                      ("Failed to create database engine: " ++ str e0)))).
Proof.
  unfold create_connection, _create_engine, bind, get_engine, set_engine,
    try_except, call, raise, ret, trace, world.
  split; [|split].
  - intros He. rewrite He. simpl.
    destruct (sa_connect env (db w)) as [d [[]|e]]; simpl; auto.
  - intros d He Hc. rewrite He. simpl. rewrite Hc. simpl.
    destruct (sa_connect env d) as [d1 [[]|e]]; simpl; auto.
  - intros d e0 He Hc. rewrite He. simpl. rewrite Hc. simpl.
    rewrite ?He, ?app_nil_r. reflexivity.
Qed.

(** X11.  [UnifiedDatabaseEngine.close] does nothing without an engine;
    with one it calls [dispose()] once and forgets the engine exactly when
    [dispose()] returned normally, so that closing again after a successful
    close does nothing. *)
Theorem engine_close_forgets_a_disposed_engine w :
  let run := UnifiedDatabaseEngine_close env w in
  (has_engine w = false -> run = ([], w, Return tt)) /\
  (has_engine w = true ->
   trace run = [EvDispose] /\
   has_engine (world run) = is_Raise (snd (sa_dispose env (db w))) /\
   (is_Raise (snd (sa_dispose env (db w))) = false ->
    trace (UnifiedDatabaseEngine_close env (world run)) = [])).
Proof.
  cbv zeta.
  unfold UnifiedDatabaseEngine_close, bind, get_engine, set_engine,
    try_except, call, raise, ret, trace, world.
  split.
  - intros H. rewrite H. reflexivity.
  - intros H. rewrite H. simpl.
    destruct (sa_dispose env (db w)) as [d [[]|e]]; simpl;
      rewrite ?H; repeat split; discriminate.
Qed.

(** Every run of [batch] begins with the events of [create_connection]. *)
Lemma batch_begins_with_create_connection sql_query w :
  exists rest,
    trace (batch env sql_query w)
    = trace (create_connection env w) ++ rest.
Proof.
  destruct (create_connection env w) as [[t0 w1] [[]|e]] eqn:Hconn.
  - rewrite (batch_connected env sql_query w Hconn). cbv zeta.
    unfold trace at 1 3. cbn [fst]. eauto.
  - rewrite (batch_unconnected env sql_query w Hconn).
    unfold trace. cbn [fst]. exists []. symmetry. apply app_nil_r.
Qed.

(** X12.  After a close whose [dispose()] returned normally, the next
    [batch] creates a new engine before anything else. *)
Theorem batch_after_close_creates_an_engine sql_query w :
  has_engine w = true ->
  is_Raise (snd (sa_dispose env (db w))) = false ->
  exists rest,
    trace (batch env sql_query (world (UnifiedDatabaseEngine_close env w)))
    = EvCreateEngine :: rest.
Proof.
  intros He Hd.
  destruct (batch_begins_with_create_connection sql_query
              (world (UnifiedDatabaseEngine_close env w))) as [rest ->].
  assert (Hoff : has_engine (world (UnifiedDatabaseEngine_close env w))
                 = false).
  { unfold UnifiedDatabaseEngine_close, bind, get_engine, set_engine,
      try_except, call, ret, world. rewrite He. simpl.
    destruct (sa_dispose env (db w)) as [d [[]|e]]; [reflexivity|].
    discriminate Hd. }
  unfold create_connection at 1, _create_engine, bind, get_engine,
    set_engine, try_except, call, raise, ret, trace.
  rewrite Hoff. simpl.
  destruct (sa_create_engine env _) as [d [[]|e]]; simpl.
  - destruct (sa_connect env d) as [d1 [[]|e]]; simpl; eauto.
  - eauto.
Qed.

(** X16.  [create_connection_pool] never opens a connection: it creates the
    engine when none is stored, hands the pool over, and raises a
    [DatabaseOperationError] when the creation fails. *)
Theorem create_connection_pool_opens_no_connection pool_size w :
  let run := create_connection_pool env pool_size w in
  occurrences (@is_connect Cell) (trace run) = 0 /\
  (has_engine w = true -> run = ([], w, Return pool_size)) /\
  (has_engine w = false ->
   trace run = [EvCreateEngine] /\
   has_engine (world run)
   = negb (is_Raise (snd (sa_create_engine env (db w)))) /\
   outcome run
   = match snd (sa_create_engine env (db w)) with
     | Return _ => Return pool_size
     | Raise e0 =>
         Raise (mkExn DatabaseOperationError
                      ("Failed to create database engine: " ++ str e0))
     end).
Proof.
  cbv zeta.
  unfold create_connection_pool, _create_engine, bind, get_engine,
    set_engine, try_except, call, raise, ret, trace, world, outcome,
    occurrences.
  destruct (has_engine w) eqn:He; simpl.
  - repeat split; discriminate.
  - destruct (sa_create_engine env (db w)) as [d [[]|e]]; simpl;
      rewrite ?He; repeat split; try discriminate; try reflexivity.
Qed.

(** X20.  [get_database_info] reports the dialect and the driver exactly when
    an engine is stored: [None] for both before the first connection and
    after a successful close, their names once [create_connection] has got
    past the creation of the engine. *)
Theorem get_database_info_shows_the_engine (i : Info Cell) w :
  (has_engine w = false ->
   dict_get (get_database_info i w) "dialect" = Some PyNone /\
   dict_get (get_database_info i w) "driver" = Some PyNone) /\
  (has_engine w = true \/
   is_Raise (snd (sa_create_engine env (db w))) = false ->
   let w1 := world (create_connection env w) in
   dict_get (get_database_info i w1) "dialect"
   = Some (PyStr (dialect_name i)) /\
   dict_get (get_database_info i w1) "driver"
   = Some (PyStr (dialect_driver i))) /\
  (has_engine w = true ->
   is_Raise (snd (sa_dispose env (db w))) = false ->
   let w1 := world (UnifiedDatabaseEngine_close env w) in
   dict_get (get_database_info i w1) "dialect" = Some PyNone /\
   dict_get (get_database_info i w1) "driver" = Some PyNone) /\
  dict_get (get_database_info i w) "url" = Some (PyStr (url i)).
Proof.
  split; [|split; [|split]].
  - intros H. unfold get_database_info. rewrite H. split; reflexivity.
  - intros Hc. cbv zeta.
    assert (He : has_engine (world (create_connection env w)) = true).
    { unfold create_connection, _create_engine, bind, get_engine,
        set_engine, try_except, call, raise, ret, world.
      destruct (has_engine w) eqn:He; simpl.
      - destruct (sa_connect env (db w)) as [d [[]|e]]; simpl; auto.
      - destruct Hc as [Hc|Hc]; [discriminate|].
        destruct (sa_create_engine env (db w)) as [d [[]|e]]; simpl in *;
          [|discriminate].
        destruct (sa_connect env d) as [d1 [[]|e]]; reflexivity. }
    unfold get_database_info. rewrite He. split; reflexivity.
  - intros He Hd. cbv zeta.
    assert (Hoff : has_engine (world (UnifiedDatabaseEngine_close env w))
                   = false).
    { unfold UnifiedDatabaseEngine_close, bind, get_engine, set_engine,
        try_except, call, ret, world. rewrite He. simpl.
      destruct (sa_dispose env (db w)) as [d [[]|e]]; [reflexivity|].
      discriminate Hd. }
    unfold get_database_info. rewrite Hoff. split; reflexivity.
  - reflexivity.
Qed.

End EngineExtras.

Section CountingFacts.

Variable Cell : Type.
Implicit Types t u : list (Event Cell).

Lemma occurrences_app (p : Event Cell -> bool) t u :
  occurrences p (t ++ u) = occurrences p t + occurrences p u.
Proof. unfold occurrences. rewrite filter_app. apply length_app. Qed.

(** Events of the statement loop are none of the events of the engine. *)
Lemma occurrences_statement_events (p : Event Cell -> bool) t :
  (forall ev, is_statement_event ev = true -> p ev = false) ->
  forallb (@is_statement_event Cell) t = true ->
  occurrences p t = 0.
Proof.
  intros Hp. unfold occurrences.
  induction t as [|ev t IH]; [reflexivity|].
  cbn [forallb filter]. intros H. apply andb_prop in H as [H1 H2].
  rewrite (Hp ev H1). auto.
Qed.

(** The statement loop neither opens nor closes anything. *)
Lemma statement_events_leave_the_engine t :
  forallb (@is_statement_event Cell) t = true ->
  occurrences (@is_close Cell) t = 0 /\
  occurrences (@is_dispose Cell) t = 0 /\
  occurrences (@is_create_engine Cell) t = 0 /\
  occurrences (@is_connect Cell) t = 0.
Proof.
  intros H.
  repeat split; apply occurrences_statement_events; try assumption;
    intros []; (reflexivity || discriminate).
Qed.

Lemma statement_calls_events s t :
  statement_calls s t -> forallb (@is_statement_event Cell) t = true.
Proof. intros [b [->| ->]]; reflexivity. Qed.

End CountingFacts.

Section BatchExtras.

Variables Cell DState Cursor : Type.
Variable env : Env Cell DState Cursor.
Implicit Types (w : World DState) (t : list (Event Cell)).
Implicit Types (rs : list (Entry Cell)) (l : Locals Cell).

Lemma for_statements_events statements : forall l w,
  forallb (@is_statement_event Cell)
          (trace (for_statements env statements l w)) = true /\
  has_engine (world (for_statements env statements l w)) = has_engine w /\
  is_Raise (outcome (for_statements env statements l w)) = false.
Proof.
  induction statements as [|s rest IH]; intros l w; [repeat split|].
  cbn [for_statements]. unfold bind, attempt.
  assert (Heng : forall rs,
             has_engine (world (loop_body env rs s w)) = has_engine w).
  { intros rs. unfold loop_body, fetch_all, execute, try_except, bind, call,
      raise, append, tell, ret, world.
    cbv [or_empty truthy dict_of andb].
    destruct (String.eqb _ _).
    - destruct (sa_execute env s _ (db w)) as [d1 [c|e]]; simpl; auto.
      destruct (sa_fetchall env c d1) as [d2 [rows|e]]; reflexivity.
    - destruct (sa_execute env s _ (db w)) as [d1 [c|e]]; reflexivity. }
  specialize (Heng (results l)).
  destruct (loop_body_cases env s w) as
    [(t1 & w1 & e & Hrun & Hc) | (t1 & w1 & entry & Hrun & Hc & Hs)];
    rewrite (Hrun (results l)) in *; unfold world in Heng; cbn [fst snd] in Heng.
  - unfold ret, trace, world, outcome. cbn [fst snd].
    rewrite app_nil_r. rewrite (statement_calls_events Hc). auto.
  - destruct (IH (mkLocals (results l ++ [entry]) (Some s)) w1)
      as (H1 & H2 & H3).
    destruct (for_statements env rest _ w1) as [[t2 w2] r2].
    unfold trace, world, outcome in *. cbn [fst snd] in *.
    rewrite !forallb_app, (statement_calls_events Hc), H1, H2. auto.
Qed.

Lemma except_block_events l e w :
  forallb (@is_statement_event Cell) (trace (except_block env l e w)) = true /\
  has_engine (world (except_block env l e w)) = has_engine w.
Proof.
  rewrite except_block_run. cbv zeta.
  destruct (snd (sa_rollback env (db w))); [destruct (stmt l)|]; split;
    reflexivity.
Qed.

(** [_execute_batch_statements] only runs statements and ends the
    transaction, and leaves the engine as it is. *)
Lemma execute_batch_events sql_query w :
  forallb (@is_statement_event Cell)
          (trace (_execute_batch_statements env sql_query w)) = true /\
  has_engine (world (_execute_batch_statements env sql_query w))
  = has_engine w.
Proof.
  destruct (parse_sql_statements env sql_query) as [statements|e0] eqn:Hparse.
  - rewrite (execute_batch_run env sql_query w Hparse).
    destruct (for_statements_events statements (mkLocals [] None) w)
      as (H1 & H2 & H3).
    destruct (for_statements env statements _ w) as [[t1 w1] [[l [e|]]|e]];
      unfold trace, world, outcome in *; cbn [fst snd] in *;
      [| |discriminate].
    + destruct (except_block_events l e w1) as [E1 E2].
      destruct (except_block env l e w1) as [[t2 w2] r].
      unfold trace, world in *. cbn [fst snd] in *.
      rewrite forallb_app, H1, E1, E2. auto.
    + cbv zeta. destruct (snd (sa_commit env (db w1))) as [[]|e].
      * cbn [fst snd has_engine]. rewrite forallb_app, H1. auto.
      * match goal with
        | |- context [except_block env l ?x ?y] =>
            destruct (except_block_events l x y) as [E1 E2];
            destruct (except_block env l x y) as [[t2 w2] r]
        end.
        unfold trace, world in *. cbn [fst snd has_engine] in *.
        rewrite forallb_app. cbn [forallb is_statement_event].
        rewrite H1, E1, E2. auto.
  - unfold _execute_batch_statements, bind, lift. rewrite Hparse.
    split; reflexivity.
Qed.

Lemma create_connection_counts w :
  let t := trace (create_connection env w) in
  occurrences (@is_close Cell) t = 0 /\
  occurrences (@is_dispose Cell) t = 0 /\
  has_engine (world (create_connection env w))
  = has_engine w || negb (is_Raise (snd (sa_create_engine env (db w)))).
Proof.
  unfold create_connection, _create_engine, bind, get_engine, set_engine,
    try_except, call, raise, ret, trace, world, occurrences.
  destruct (has_engine w) eqn:He; simpl.
  - destruct (sa_connect env (db w)) as [d [[]|e]]; simpl; rewrite ?He; auto.
  - destruct (sa_create_engine env (db w)) as [d [[]|e]]; simpl;
      rewrite ?He; auto.
    destruct (sa_connect env d) as [d1 [[]|e]]; simpl; auto.
Qed.

(** X5.  [batch] closes the connection exactly once when it got one, as the
    last thing it does, and never when it got none; it never disposes of the
    engine. *)
Theorem batch_closes_the_connection_it_opened sql_query w :
  let t := trace (batch env sql_query w) in
  (is_Raise (outcome (create_connection env w)) = false ->
   occurrences (@is_close Cell) t = 1 /\
   exists before, t = before ++ [EvClose]) /\
  (is_Raise (outcome (create_connection env w)) = true ->
   occurrences (@is_close Cell) t = 0 /\ executed t = []) /\
  occurrences (@is_dispose Cell) t = 0.
Proof.
  cbv zeta.
  destruct (create_connection_counts w) as (Q1 & Q2 & _).
  destruct (create_connection_quiet env w) as (Q3 & _).
  destruct (create_connection env w) as [[t0 w1] [[]|e]] eqn:Hconn;
    unfold trace, outcome in Q1, Q2, Q3 |- *; cbn [fst snd is_Raise] in *.
  - rewrite (batch_connected env sql_query w Hconn). cbv zeta. cbn [fst].
    destruct (execute_batch_events sql_query w1) as [E _].
    destruct (statement_events_leave_the_engine _ E) as (E1 & E2 & _).
    rewrite !occurrences_app, Q1, Q2, E1, E2.
    split; [|split]; try reflexivity; try discriminate.
    intros _. split; [reflexivity|].
    exists (t0 ++ trace (_execute_batch_statements env sql_query w1)).
    rewrite <- app_assoc. reflexivity.
  - rewrite (batch_unconnected env sql_query w Hconn). cbn [fst].
    split; [discriminate | split; auto].
Qed.

(** X19.  [batch] keeps the engine: after it, an engine is stored exactly
    when one was stored before or its creation succeeded. *)
Theorem batch_keeps_the_engine sql_query w :
  has_engine (world (batch env sql_query w))
  = has_engine w || negb (is_Raise (snd (sa_create_engine env (db w)))) /\
  (has_engine w = true ->
   occurrences (@is_create_engine Cell) (trace (batch env sql_query w)) = 0).
Proof.
  destruct (create_connection_counts w) as (_ & _ & Q).
  split.
  - rewrite <- Q.
    destruct (create_connection env w) as [[t0 w1] [[]|e]] eqn:Hconn.
    + rewrite (batch_connected env sql_query w Hconn). cbv zeta.
      unfold world at 1 3. cbn [fst snd has_engine].
      apply (proj2 (execute_batch_events sql_query w1)).
    + rewrite (batch_unconnected env sql_query w Hconn). reflexivity.
  - intros He.
    assert (Ht : trace (create_connection env w) = [EvConnect]).
    { unfold create_connection, bind, get_engine, try_except, call, raise,
        ret, trace. rewrite He. simpl.
      destruct (sa_connect env (db w)) as [d [[]|e]]; reflexivity. }
    destruct (create_connection env w) as [[t0 w1] [[]|e]] eqn:Hconn;
      unfold trace in Ht; cbn [fst] in Ht; subst t0.
    + rewrite (batch_connected env sql_query w Hconn). cbv zeta.
      unfold trace at 1. cbn [fst].
      destruct (execute_batch_events sql_query w1) as [E _].
      destruct (statement_events_leave_the_engine _ E) as (_ & _ & E3 & _).
      rewrite !occurrences_app, E3. reflexivity.
    + rewrite (batch_unconnected env sql_query w Hconn). reflexivity.
Qed.

End BatchExtras.

Section EdgeExtras.

Variables Cell DState Cursor : Type.
Variable env : Env Cell DState Cursor.
Implicit Types (w : World DState) (t : list (Event Cell)).
Implicit Types (rs : list (Entry Cell)) (l : Locals Cell).

(** X6.  A text without any statement: [batch] opens the connection,
    commits, closes and returns the empty list. *)
Theorem batch_of_no_statement sql_query w t0 w1 :
  create_connection env w = (t0, w1, Return tt) ->
  parse_sql_statements env sql_query = Return [] ->
  is_Raise (snd (sa_commit env (db w1))) = false ->
  outcome (batch env sql_query w) = Return [] /\
  trace (batch env sql_query w) = t0 ++ [EvCommit; EvClose].
Proof.
  intros Hconn Hparse Hc.
  rewrite (batch_connected env sql_query w Hconn). cbv zeta.
  rewrite (execute_batch_run env sql_query w1 Hparse).
  cbn [for_statements]. unfold ret. cbv zeta.
  destruct (snd (sa_commit env (db w1))) as [[]|e]; [|discriminate Hc].
  split; reflexivity.
Qed.

Lemma last_map_Some (statements : list string) (d : string) :
  statements <> [] ->
  last (map Some statements) None = Some (last statements d).
Proof.
  induction statements as [|s rest IH]; [congruence|]. intros _.
  destruct rest as [|s2 rest]; [reflexivity|].
  change (last (map Some (s2 :: rest)) None = Some (last (s2 :: rest) d)).
  apply IH. discriminate.
Qed.

(** X7.  When every statement has succeeded and [commit()] raises, the
    [except] clause rolls back and appends one more entry: it names the last
    statement and carries the message of the commit.  The list then has one
    entry more than there are statements. *)
Theorem failed_commit_is_charged_to_the_last_statement
  sql_query statements w e0 :
  parse_sql_statements env sql_query = Return statements ->
  statements <> [] ->
  first_failure env statements w = None ->
  snd (sa_commit env (db (world_after env statements w))) = Raise e0 ->
  is_Raise (snd (sa_rollback env
              (fst (sa_commit env (db (world_after env statements w))))))
  = false ->
  let run := _execute_batch_statements env sql_query w in
  exists entries,
    outcome run
    = Return (entries ++
              [error_entry env (last statements EmptyString)
                           ("Commit failed: " ++ str e0)]) /\
    Forall2 (success_entry env) statements entries /\
    List.length entries = List.length statements /\
    committed (trace run) = true /\ rolled_back (trace run) = true.
Proof.
  intros Hparse Hne Hff Hc Hrb run. subst run.
  destruct (execute_batch_success env sql_query w Hparse Hff)
    as (t & new & Hex & Hap & Hsh & Hco & Hro & Hrun).
  cbv zeta in Hrun. rewrite Hc in Hrun. cbn [db] in Hrun, Hrb.
  destruct (snd (sa_rollback env _)) as [[]|e1]; [|discriminate Hrb].
  rewrite (last_map_Some EmptyString Hne) in Hrun.
  rewrite Hrun. unfold outcome, trace. cbn [fst snd].
  exists new. rewrite committed_app, rolled_back_app, Hco, Hro.
  repeat split; try assumption.
  symmetry. exact (Forall2_length_eq Hsh).
Qed.

(** X8.  A text without any statement whose [commit()] raises: after the
    rollback the [except] clause reads [stmt], which was never bound, and
    [_execute_batch_statements] raises an [UnboundLocalError]; [batch]
    returns it as the error of the whole text. *)
Theorem failed_commit_without_statement_is_unbound sql_query w t0 w1 e0 :
  create_connection env w = (t0, w1, Return tt) ->
  parse_sql_statements env sql_query = Return [] ->
  snd (sa_commit env (db w1)) = Raise e0 ->
  is_Raise (snd (sa_rollback env (fst (sa_commit env (db w1))))) = false ->
  exists e,
    outcome (_execute_batch_statements env sql_query w1) = Raise e /\
    exn_class e = UnboundLocalError /\
    rolled_back (trace (_execute_batch_statements env sql_query w1)) = true /\
    outcome (batch env sql_query w)
    = Return [error_entry env sql_query (str e)].
Proof.
  intros Hconn Hparse Hc Hrb.
  rewrite (batch_connected env sql_query w Hconn). cbv zeta.
  rewrite (execute_batch_run env sql_query w1 Hparse).
  cbn [for_statements]. unfold ret. cbv zeta. rewrite Hc.
  rewrite except_block_run. cbn [stmt results db has_engine]. cbv zeta.
  destruct (snd (sa_rollback env _)) as [[]|e1]; [|discriminate Hrb].
  eexists. repeat split; reflexivity.
Qed.

(** X9.  When a statement fails and [rollback()] raises as well, the entries
    gathered so far are dropped: [_execute_batch_statements] raises the
    [DatabaseOperationError] of the rollback, and [batch] turns it into one
    entry for the whole text, or into a [DatabaseConnectionError] when its
    message passes the connection test. *)
Theorem failed_rollback_drops_the_entries
  sql_query statements w t0 w1 k e e1 :
  create_connection env w = (t0, w1, Return tt) ->
  parse_sql_statements env sql_query = Return statements ->
  first_failure env statements w1 = Some (k, e) ->
  snd (sa_rollback env (db (world_after env statements w1))) = Raise e1 ->
  let failure :=
    mkExn DatabaseOperationError ("Rollback failed: " ++ str e1) in
  outcome (_execute_batch_statements env sql_query w1) = Raise failure /\
  List.length (appended (trace (_execute_batch_statements env sql_query w1)))
  = k /\
  outcome (batch env sql_query w)
  = (if is_connection_error failure
     then Raise (mkExn DatabaseConnectionError
                       ("Database connection failed: " ++ str failure))
     else Return [error_entry env sql_query (str failure)]).
Proof.
  intros Hconn Hparse Hff Hrb failure. subst failure.
  destruct (execute_batch_failure env sql_query w1 Hparse Hff)
    as (t & new & s & Hnth & Hex & Hap & Hsh & Hco & Hro & Hrun).
  cbv zeta in Hrun. rewrite Hrb in Hrun.
  rewrite (batch_connected env sql_query w Hconn). cbv zeta.
  rewrite Hrun. unfold outcome, trace. cbn [fst snd].
  repeat split.
  rewrite appended_app, Hap, app_nil_r.
  rewrite <- (Forall2_length_eq Hsh), length_firstn.
  pose proof (first_failure_bound env statements w1 Hff). lia.
Qed.

(** The lists that [_execute_batch_statements] returns: entries of
    statements that succeeded, then at most one error entry. *)
Lemma execute_batch_shape sql_query w rs :
  outcome (_execute_batch_statements env sql_query w) = Return rs ->
  exists entries,
    Forall (fun entry => error_of entry = None) entries /\
    (rs = entries \/ exists s msg, rs = entries ++ [error_entry env s msg]).
Proof.
  assert (Hok : forall statements new,
             Forall2 (success_entry env) statements new ->
             Forall (fun entry => error_of entry = None) new).
  { induction 1; constructor; [|assumption].
    eapply success_entry_no_error; eassumption. }
  destruct (parse_sql_statements env sql_query) as [statements|e0] eqn:Hparse.
  - destruct (first_failure env statements w) as [[k e]|] eqn:Hff.
    + destruct (execute_batch_failure env sql_query w Hparse Hff)
        as (t & new & s & Hnth & Hex & Hap & Hsh & Hco & Hro & Hrun).
      cbv zeta in Hrun. rewrite Hrun.
      destruct (snd (sa_rollback env _)) as [[]|e1]; [|discriminate].
      intros [= <-]. exists new. split; [eapply Hok; eassumption|].
      right. eauto.
    + destruct (execute_batch_success env sql_query w Hparse Hff)
        as (t & new & Hex & Hap & Hsh & Hco & Hro & Hrun).
      cbv zeta in Hrun. rewrite Hrun.
      destruct (snd (sa_commit env _)) as [[]|e].
      * intros [= <-]. exists new. split; [eapply Hok; eassumption|].
        left. reflexivity.
      * destruct (snd (sa_rollback env _)) as [[]|e1]; [|discriminate].
        destruct (last (map Some statements) None); [|discriminate].
        intros [= <-]. exists new. split; [eapply Hok; eassumption|].
        right. eauto.
  - unfold _execute_batch_statements, bind, lift. rewrite Hparse.
    discriminate.
Qed.

(** X10.  In every list that [batch] returns, an entry with an error message
    can only be the last one. *)
Theorem an_error_entry_is_the_last_one sql_query w rs i entry :
  outcome (batch env sql_query w) = Return rs ->
  nth_error rs i = Some entry ->
  error_of entry <> None ->
  S i = List.length rs.
Proof.
  intros Hout Hnth Herr.
  assert (Hshape : exists entries,
             Forall (fun entry => error_of entry = None) entries /\
             (rs = entries \/
              exists s msg, rs = entries ++ [error_entry env s msg])).
  { destruct (create_connection env w) as [[t0 w1] [[]|e]] eqn:Hconn.
    - rewrite (batch_connected env sql_query w Hconn) in Hout.
      cbv zeta in Hout. unfold outcome at 1 in Hout. cbn [snd] in Hout.
      destruct (outcome (_execute_batch_statements env sql_query w1))
        as [rs1|e] eqn:Hin.
      + injection Hout as <-. eapply execute_batch_shape; eassumption.
      + destruct (is_connection_error e); [discriminate|].
        injection Hout as <-. exists []. split; [constructor|].
        right. do 2 eexists. reflexivity.
    - rewrite (batch_unconnected env sql_query w Hconn) in Hout.
      unfold outcome in Hout. cbn [snd] in Hout.
      destruct (is_connection_error e); [discriminate|].
      injection Hout as <-. exists []. split; [constructor|].
      right. do 2 eexists. reflexivity. }
  destruct Hshape as (entries & Hall & Hrs).
  rewrite Forall_forall in Hall.
  assert (Hin : i < List.length entries -> False).
  { intros Hlt. apply Herr. apply Hall.
    destruct Hrs as [-> | (s & msg & ->)].
    - eapply nth_error_In; eassumption.
    - rewrite nth_error_app1 in Hnth by assumption.
      eapply nth_error_In; eassumption. }
  assert (Hi : i < List.length rs) by (apply nth_error_Some; congruence).
  destruct Hrs as [-> | (s & msg & ->)].
  - contradiction.
  - rewrite length_app in *. simpl in *. lia.
Qed.

End EdgeExtras.

Section ProbeExtras.

Variables Cell DState Cursor : Type.
Variable env : Env Cell DState Cursor.
Variable sa_fetchone : Cursor -> DState -> DState * Result (option (Row Cell)).
Implicit Types (w : World DState) (t : list (Event Cell)).

Lemma fetch_one_trace sql parameters w :
  trace (fetch_one env sa_fetchone sql parameters w)
  = [EvExecute sql (Named (or_empty parameters))].
Proof.
  unfold fetch_one, try_except, bind, call, unrecorded, raise, trace.
  destruct (sa_execute env sql _ (db w)) as [d [c|e]]; simpl; [|reflexivity].
  destruct (sa_fetchone c d) as [d1 [row|e]]; reflexivity.
Qed.

(** X13.  [test_connection] never raises.  It answers [True] exactly when
    the connection could be created and the single-row fetch of [SELECT 1]
    went through, and it closes the connection whenever it got one. *)
Theorem test_connection_answers_without_raising w :
  let run := test_connection env sa_fetchone w in
  let probe := fetch_one env sa_fetchone "SELECT 1" None in
  outcome run
  = Return (match create_connection env w with
            | (_, w1, Return _) => negb (is_Raise (outcome (probe w1)))
            | (_, _, Raise _) => false
            end) /\
  occurrences (@is_close Cell) (trace run)
  = (if is_Raise (outcome (create_connection env w)) then 0 else 1).
Proof.
  cbv zeta. unfold test_connection, try_except, bind.
  destruct (create_connection_counts env w) as (Q1 & _).
  destruct (create_connection env w) as [[t0 w1] [[]|e]];
    unfold trace, outcome in Q1 |- *; cbn [fst snd is_Raise] in *.
  - rewrite with_connection_run.
    pose proof (fetch_one_trace "SELECT 1" None w1) as Ht.
    destruct (fetch_one env sa_fetchone "SELECT 1" None w1)
      as [[t1 w2] [row|e]];
      unfold trace, outcome, ret in *; cbn [fst snd is_Raise negb] in *;
      subst t1; (split; [reflexivity|]);
      rewrite ?occurrences_app, Q1; reflexivity.
  - unfold ret. cbn [fst snd]. rewrite occurrences_app, Q1.
    split; reflexivity.
Qed.

(** X14.  [health_check] never raises.  It answers [True] exactly when
    [connect()], the execution of [SELECT 1] and the closing of the
    connection all went through, and it closes the connection whenever
    [connect()] gave one. *)
Theorem health_check_answers_without_raising w :
  let run := health_check env w in
  let d1 := fst (sa_connect env (db w)) in
  let d2 := fst (sa_execute env "SELECT 1" NoParameters d1) in
  outcome run
  = Return (negb (is_Raise (snd (sa_connect env (db w))))
            && negb (is_Raise
                       (snd (sa_execute env "SELECT 1" NoParameters d1)))
            && negb (is_Raise (snd (sa_close env d2)))) /\
  occurrences (@is_close Cell) (trace run)
  = (if is_Raise (snd (sa_connect env (db w))) then 0 else 1).
Proof.
  cbv zeta.
  unfold health_check, try_except, bind, finally_, call, ret, trace,
    outcome, occurrences.
  destruct (sa_connect env (db w)) as [d1 [[]|e]]; cbn [fst snd db];
    [|split; reflexivity].
  destruct (sa_execute env "SELECT 1" NoParameters d1) as [d2 [c|e]];
    cbn [fst snd db];
    destruct (sa_close env d2) as [d3 [[]|e']]; split; reflexivity.
Qed.

(** X15.  The pool: [return_connection] and [close_all] always return
    normally; [get_connection] raises exactly when [connect()] does, and
    what it raises is a [DatabaseConnectionError], which the handler of
    [batch] takes for a connection error; [close_all] leaves the engine
    stored, so that [create_connection] afterwards connects without creating
    one. *)
Theorem pool_methods_contain_their_failures w :
  outcome (return_connection env w) = Return tt /\
  outcome (close_all env w) = Return tt /\
  is_Raise (outcome (get_connection env w))
  = is_Raise (snd (sa_connect env (db w))) /\
  (forall e,
      outcome (get_connection env w) = Raise e ->
      exn_class e = DatabaseConnectionError /\
      is_connection_error e = true) /\
  (has_engine w = true ->
   trace (create_connection env (world (close_all env w))) = [EvConnect]).
Proof.
  split; [|split; [|split; [|split]]].
  - unfold return_connection, try_except. rewrite close_run. reflexivity.
  - unfold close_all, try_except, call, ret, outcome.
    destruct (sa_dispose env (db w)) as [d [[]|e]]; reflexivity.
  - unfold get_connection, try_except, call, raise, outcome.
    destruct (sa_connect env (db w)) as [d [[]|e]]; reflexivity.
  - intros e. unfold get_connection, try_except, call, raise, outcome.
    destruct (sa_connect env (db w)) as [d [[]|e0]]; cbn [snd];
      [discriminate|].
    intros [= <-]. split; reflexivity.
  - intros He.
    assert (Hkept : has_engine (world (close_all env w)) = true).
    { unfold close_all, try_except, call, ret, world.
      destruct (sa_dispose env (db w)) as [d [[]|e]]; exact He. }
    unfold create_connection, bind, get_engine, try_except, call, raise,
      ret, trace.
    rewrite Hkept. simpl.
    destruct (sa_connect env _) as [d [[]|e]]; reflexivity.
Qed.

End ProbeExtras.

(** X18.  In [errors/__init__.py], [__all__] lists the imported names, all
    of them, in the order of the imports, and none twice. *)
Theorem all_lists_the_imported_names :
  Errors.__all__ = Errors.bound /\
  NoDup Errors.__all__ /\
  (forall name,
      Errors.mem name Errors.__all__ = true <-> In name Errors.bound).
Proof.
  assert (Heq : Errors.__all__ = Errors.bound) by reflexivity.
  split; [exact Heq|]. split.
  - assert (H : nodup string_dec Errors.__all__ = Errors.__all__)
      by (vm_compute; reflexivity).
    rewrite <- H. apply NoDup_nodup.
  - intros name. rewrite <- Heq. unfold Errors.mem.
    rewrite existsb_exists. split.
    + intros (x & Hin & Hx). apply String.eqb_eq in Hx. subst. exact Hin.
    + intros Hin. exists name. split; [exact Hin | apply String.eqb_refl].
Qed.

(** ** Concrete runs of the further properties *)

(** X1 on a text with a [?] and an empty dictionary. *)
Lemma execute_without_parameters_witness :
  let env := Mock.env Mock.quiet in
  let sql := "SELECT * FROM t WHERE id = ?" in
  let run := execute env sql (Some []) Mock.connected in
  trace run = [EvExecute sql NoParameters] /\
  world run
  = mkWorld (fst (sa_execute env sql NoParameters (db Mock.connected)))
            (has_engine Mock.connected) /\
  outcome run
  = wrapped "SQL execution failed: "
            (snd (sa_execute env sql NoParameters (db Mock.connected))).
Proof.
  apply (@execute_without_parameters _ _ _ (Mock.env Mock.quiet)
           "SELECT * FROM t WHERE id = ?" (Some []) Mock.connected).
  right. reflexivity.
Defined.

(** X3 on a query with a [?] and one parameter: the dictionary goes as it
    is. *)
Lemma fetch_all_binds_by_name_witness :
  let env := Mock.env Mock.quiet in
  let sql := "SELECT * FROM t WHERE id = ?" in
  trace (fetch_all env sql (Some [("id", 7%Z)]) Mock.connected)
  = [EvExecute sql (Named [("id", 7%Z)]); EvFetchall].
Proof.
  apply (proj2 (proj2 (@fetch_all_binds_by_name _ _ _ (Mock.env Mock.quiet)
                         "SELECT * FROM t WHERE id = ?"
                         (Some [("id", 7%Z)]) Mock.connected))
               [[("value", 1%Z)]]).
  reflexivity.
Defined.

(** X4 from the start: the engine is created, then the connection. *)
Lemma create_connection_builds_the_engine_once_witness :
  let env := Mock.env Mock.quiet in
  trace (create_connection env Mock.start) = [EvCreateEngine; EvConnect] /\
  has_engine (world (create_connection env Mock.start)) = true.
Proof.
  apply (proj1 (proj2 (@create_connection_builds_the_engine_once _ _ _
                         (Mock.env Mock.quiet) Mock.start)) []);
    reflexivity.
Defined.

(** X5 on the three statements. *)
Lemma batch_closes_the_connection_it_opened_witness :
  let t := trace (batch (Mock.env Mock.quiet) Mock.three Mock.start) in
  occurrences (@is_close Z) t = 1 /\ exists before, t = before ++ [EvClose].
Proof.
  apply (proj1 (@batch_closes_the_connection_it_opened _ _ _
                  (Mock.env Mock.quiet) Mock.three Mock.start)).
  reflexivity.
Defined.

(** X6 on a text of blanks and semicolons. *)
Lemma batch_of_no_statement_witness :
  let env := Mock.env Mock.quiet in
  outcome (batch env " ; ;" Mock.start) = Return [] /\
  trace (batch env " ; ;" Mock.start)
  = Mock.connecting ++ [EvCommit; EvClose].
Proof.
  apply (@batch_of_no_statement _ _ _ (Mock.env Mock.quiet) " ; ;"
           Mock.start Mock.connecting Mock.connected);
    reflexivity.
Defined.

(** X7 on two inserts and a commit that fails. *)
Lemma failed_commit_is_charged_to_the_last_statement_witness :
  let env := Mock.env (MockRest.commit_fails "disk full") in
  let sql := "INSERT INTO t VALUES (1); INSERT INTO t VALUES (2)" in
  let statements :=
    ["INSERT INTO t VALUES (1)"; "INSERT INTO t VALUES (2)"] in
  let run := _execute_batch_statements env sql Mock.connected in
  exists entries,
    outcome run
    = Return (entries ++
              [error_entry env (last statements EmptyString)
                           ("Commit failed: " ++ "disk full")]) /\
    Forall2 (success_entry env) statements entries /\
    List.length entries = List.length statements /\
    committed (trace run) = true /\ rolled_back (trace run) = true.
Proof.
  apply (@failed_commit_is_charged_to_the_last_statement _ _ _
           (Mock.env (MockRest.commit_fails "disk full"))
           "INSERT INTO t VALUES (1); INSERT INTO t VALUES (2)"
           ["INSERT INTO t VALUES (1)"; "INSERT INTO t VALUES (2)"]
           Mock.connected
           (mkExn (OtherException "OperationalError") "disk full"));
    try reflexivity.
  discriminate.
Defined.

(** X8 on the empty text and a commit that fails. *)
Lemma failed_commit_without_statement_is_unbound_witness :
  let env := Mock.env (MockRest.commit_fails "disk full") in
  exists e,
    outcome (_execute_batch_statements env EmptyString Mock.connected)
    = Raise e /\
    exn_class e = UnboundLocalError /\
    rolled_back (trace (_execute_batch_statements env EmptyString
                                                  Mock.connected)) = true /\
    outcome (batch env EmptyString Mock.start)
    = Return [error_entry env EmptyString (str e)].
Proof.
  apply (@failed_commit_without_statement_is_unbound _ _ _
           (Mock.env (MockRest.commit_fails "disk full"))
           EmptyString Mock.start Mock.connecting Mock.connected
           (mkExn (OtherException "OperationalError") "disk full"));
    reflexivity.
Defined.

(** X9 on the three statements and a rollback that fails. *)
Lemma failed_rollback_drops_the_entries_witness :
  let env := Mock.env (Mock.rollback_fails "disk I/O error") in
  let failure :=
    mkExn DatabaseOperationError ("Rollback failed: " ++ "disk I/O error") in
  outcome (_execute_batch_statements env Mock.three Mock.connected)
  = Raise failure /\
  List.length
    (appended (trace (_execute_batch_statements env Mock.three
                                                Mock.connected))) = 1 /\
  outcome (batch env Mock.three Mock.start)
  = (if is_connection_error failure
     then Raise (mkExn DatabaseConnectionError
                       ("Database connection failed: " ++ str failure))
     else Return [error_entry env Mock.three (str failure)]).
Proof.
  apply (@failed_rollback_drops_the_entries _ _ _
           (Mock.env (Mock.rollback_fails "disk I/O error"))
           Mock.three Mock.three_statements Mock.start
           Mock.connecting Mock.connected 1 Mock.refused
           (mkExn (OtherException "OperationalError") "disk I/O error"));
    reflexivity.
Defined.

(** X10 on the three statements: the error entry is the second of two. *)
Lemma an_error_entry_is_the_last_one_witness :
  let env := Mock.env Mock.quiet in
  2 = List.length [execute_entry env "INSERT INTO t VALUES (1)";
                   error_entry env "BAD SQL HERE" (str Mock.refused)].
Proof.
  apply (@an_error_entry_is_the_last_one _ _ _ (Mock.env Mock.quiet)
           Mock.three Mock.start
           [execute_entry (Mock.env Mock.quiet) "INSERT INTO t VALUES (1)";
            error_entry (Mock.env Mock.quiet) "BAD SQL HERE"
                        (str Mock.refused)]
           1
           (error_entry (Mock.env Mock.quiet) "BAD SQL HERE"
                        (str Mock.refused)));
    try reflexivity.
  discriminate.
Defined.

(** X11 on an engine that is there and can be disposed of. *)
Lemma engine_close_forgets_a_disposed_engine_witness :
  let env := Mock.env Mock.quiet in
  let run := UnifiedDatabaseEngine_close env Mock.connected in
  trace run = [EvDispose] /\
  has_engine (world run)
  = is_Raise (snd (sa_dispose env (db Mock.connected))) /\
  (is_Raise (snd (sa_dispose env (db Mock.connected))) = false ->
   trace (UnifiedDatabaseEngine_close env (world run)) = []).
Proof.
  apply (proj2 (@engine_close_forgets_a_disposed_engine _ _ _
                  (Mock.env Mock.quiet) Mock.connected)).
  reflexivity.
Defined.

(** X12 on the three statements. *)
Lemma batch_after_close_creates_an_engine_witness :
  let env := Mock.env Mock.quiet in
  exists rest,
    trace (batch env Mock.three
                 (world (UnifiedDatabaseEngine_close env Mock.connected)))
    = EvCreateEngine :: rest.
Proof.
  apply (@batch_after_close_creates_an_engine _ _ _ (Mock.env Mock.quiet)
           Mock.three Mock.connected);
    reflexivity.
Defined.

(** X15 on a pool whose engine cannot connect. *)
Lemma pool_methods_contain_their_failures_witness :
  let e := mkExn DatabaseConnectionError
                 "Failed to get connection: unable to open database file" in
  exn_class e = DatabaseConnectionError /\ is_connection_error e = true.
Proof.
  apply (proj1 (proj2 (proj2 (proj2
           (@pool_methods_contain_their_failures _ _ _
              (Mock.env (Mock.no_connection "unable to open database file"))
              Mock.connected))))).
  reflexivity.
Defined.

(** X16 from the start. *)
Lemma create_connection_pool_opens_no_connection_witness :
  let env := Mock.env Mock.quiet in
  let run := create_connection_pool env 5 Mock.start in
  trace run = [EvCreateEngine] /\
  has_engine (world run)
  = negb (is_Raise (snd (sa_create_engine env (db Mock.start)))) /\
  outcome run
  = match snd (sa_create_engine env (db Mock.start)) with
    | Return _ => Return 5%Z
    | Raise e0 =>
        Raise (mkExn DatabaseOperationError
                     ("Failed to create database engine: " ++ str e0))
    end.
Proof.
  apply (proj2 (proj2 (@create_connection_pool_opens_no_connection _ _ _
                         (Mock.env Mock.quiet) 5%Z Mock.start))).
  reflexivity.
Defined.

(** X19 with an engine in place. *)
Lemma batch_keeps_the_engine_witness :
  occurrences (@is_create_engine Z)
              (trace (batch (Mock.env Mock.quiet) Mock.three Mock.connected))
  = 0.
Proof.
  apply (proj2 (@batch_keeps_the_engine _ _ _ (Mock.env Mock.quiet)
                  Mock.three Mock.connected)).
  reflexivity.
Defined.

(** X20 before the first connection. *)
Lemma get_database_info_shows_the_engine_witness :
  dict_get (get_database_info MockRest.info Mock.start) "dialect"
  = Some PyNone /\
  dict_get (get_database_info MockRest.info Mock.start) "driver"
  = Some PyNone.
Proof.
  apply (proj1 (@get_database_info_shows_the_engine _ _ _
                  (Mock.env Mock.quiet) MockRest.info Mock.start)).
  reflexivity.
Defined.
